(** * psycho-trader-ai: the memory repository and the memory service

    A shallow embedding of [src/db/models.py], [src/memory/repository.py]
    and [src/memory/service.py].  The relational store is a record of four
    tables (lists of rows in insertion order); every repository method is a
    function in a small state monad over that store.  The server clock is
    the sequence of values [datetime.utcnow()] returns, one per call. *)

From Stdlib Require Import ZArith Lia Bool Ascii.
From stdpp Require Import base decidable option list sorting strings gmap.

Local Open Scope Z_scope.

(** ** Dates and times

    A naive [datetime] is the number of microseconds since the epoch; its
    [.date()] is the ordinal of its calendar day, and the [.days] of a
    difference is the floor of the difference in days (a [timedelta] is
    normalised with a non-negative remainder). *)

Definition datetime := Z.

Definition us_per_day : Z := 86400000000.

Definition date (dt : datetime) : Z := dt / us_per_day.

Definition timedelta_days (a b : datetime) : Z := (a - b) / us_per_day.

(** ** Rows of the four tables ([src/db/models.py]) *)

Module User.
Record t := mk {
  id : Z;
  user_id : string;
  created_at : datetime;
  first_interaction_date : option datetime;
  last_interaction_date : option datetime;
  total_sessions : Z;
  current_streak : Z;
  longest_streak : Z;
  connection_depth : Z
}.

Definition set_first_interaction_date (v : option datetime) (u : t) : t :=
  mk (id u) (user_id u) (created_at u) v (last_interaction_date u)
     (total_sessions u) (current_streak u) (longest_streak u)
     (connection_depth u).

Definition set_last_interaction_date (v : option datetime) (u : t) : t :=
  mk (id u) (user_id u) (created_at u) (first_interaction_date u) v
     (total_sessions u) (current_streak u) (longest_streak u)
     (connection_depth u).

Definition set_total_sessions (v : Z) (u : t) : t :=
  mk (id u) (user_id u) (created_at u) (first_interaction_date u)
     (last_interaction_date u) v (current_streak u) (longest_streak u)
     (connection_depth u).

Definition set_current_streak (v : Z) (u : t) : t :=
  mk (id u) (user_id u) (created_at u) (first_interaction_date u)
     (last_interaction_date u) (total_sessions u) v (longest_streak u)
     (connection_depth u).

Definition set_longest_streak (v : Z) (u : t) : t :=
  mk (id u) (user_id u) (created_at u) (first_interaction_date u)
     (last_interaction_date u) (total_sessions u) (current_streak u) v
     (connection_depth u).

Definition set_connection_depth (v : Z) (u : t) : t :=
  mk (id u) (user_id u) (created_at u) (first_interaction_date u)
     (last_interaction_date u) (total_sessions u) (current_streak u)
     (longest_streak u) v.
End User.

Module Memory.
Record t := mk {
  id : Z;
  user_id : Z;
  observation : string;
  interpretation : option string;
  category : option string;
  created_at : datetime;
  relevance_score : Z;
  follow_up_question : option string;
  people_mentioned : option string;
  is_identity_statement : bool;
  is_breakthrough_moment : bool
}.

Definition set_relevance_score (v : Z) (m : t) : t :=
  mk (id m) (user_id m) (observation m) (interpretation m) (category m)
     (created_at m) v (follow_up_question m) (people_mentioned m)
     (is_identity_statement m) (is_breakthrough_moment m).
End Memory.

Module SessionModel.
Record t := mk {
  id : Z;
  user_id : Z;
  user_input : string;
  agent_response : string;
  created_at : datetime
}.
End SessionModel.

Module Achievement.
Record t := mk {
  id : Z;
  user_id : Z;
  achievement_key : string;
  unlocked_at : datetime;
  celebrated : bool
}.

Definition set_celebrated (v : bool) (a : t) : t :=
  mk (id a) (user_id a) (achievement_key a) (unlocked_at a) v.
End Achievement.

(** ** The store

    [clock_reads] counts the calls of [datetime.utcnow()] made so far. *)

Record Store := mkStore {
  users : list User.t;
  memories : list Memory.t;
  sessions : list SessionModel.t;
  achievements : list Achievement.t;
  clock_reads : nat
}.

Definition empty_store : Store := mkStore [] [] [] [] 0%nat.

Definition with_users (v : list User.t) (s : Store) : Store :=
  mkStore v (memories s) (sessions s) (achievements s) (clock_reads s).

Definition with_memories (v : list Memory.t) (s : Store) : Store :=
  mkStore (users s) v (sessions s) (achievements s) (clock_reads s).

Definition with_sessions (v : list SessionModel.t) (s : Store) : Store :=
  mkStore (users s) (memories s) v (achievements s) (clock_reads s).

Definition with_achievements (v : list Achievement.t) (s : Store) : Store :=
  mkStore (users s) (memories s) (sessions s) v (clock_reads s).

(** ** The state monad of the repository *)

Definition M (A : Type) : Type := Store -> A * Store.

Definition ret {A} (a : A) : M A := fun s => (a, s).

Definition bind {A B} (c : M A) (k : A -> M B) : M B :=
  fun s => let '(a, s') := c s in k a s'.

Definition get : M Store := fun s => (s, s).

Definition modify (f : Store -> Store) : M unit := fun s => (tt, f s).

Notation "'let*' x ':=' c 'in' k" := (bind c (fun x => k))
  (at level 10, x name, c at level 100, k at level 200).
Notation "'let*' ' p ':=' c 'in' k" := (bind c (fun p => k))
  (at level 10, p strict pattern, c at level 100, k at level 200).

(** ** Query helpers: what the ORM calls compute on a table *)

(** [INTEGER PRIMARY KEY]: a new row gets the largest id so far plus one. *)
Definition next_id (ids : list Z) : Z := 1 + foldr Z.max 0 ids.

(** [.first()] of a filtered query. *)
Definition first {A} (p : A -> bool) (rows : list A) : option A :=
  List.find p rows.

(** The row [.first()] returned, written back at commit. *)
Fixpoint update_first {A} (p : A -> bool) (f : A -> A) (rows : list A)
  : list A :=
  match rows with
  | [] => []
  | r :: rows' => if p r then f r :: rows' else r :: update_first p f rows'
  end.

(** [.limit(n)]: the first [n] rows; the default engine (SQLite) reads a
    negative [n] as no limit. *)
Definition sql_limit {A} (n : Z) (rows : list A) : list A :=
  if n <? 0 then rows else take (Z.to_nat n) rows.

(** [.count()] *)
Definition count {A} (rows : list A) : Z := Z.of_nat (length rows).

(** [x or d] on an integer column: [d] replaces a zero. *)
Definition py_or (x d : Z) : Z := if bool_decide (x = 0) then d else x.

(** ** Strings: [str.split(',')], and [str.strip()] on ASCII text

    Strings are byte strings (UTF-8).  [str.strip()] itself is a parameter
    of the repository, [str_strip]: Python strips every Unicode white
    space.  [ascii_strip] strips the ASCII white space only (codes 9-13
    and 28-32); it is what [str.strip()] does on ASCII text, and the
    instance the sample data uses. *)

Definition is_space (a : ascii) : bool :=
  let n := nat_of_ascii a in
  ((9 <=? n)%nat && (n <=? 13)%nat) || ((28 <=? n)%nat && (n <=? 32)%nat).

Fixpoint lstrip (s : string) : string :=
  match s with
  | EmptyString => EmptyString
  | String a s' => if is_space a then lstrip s' else s
  end.

Definition ascii_strip (s : string) : string :=
  String.rev (lstrip (String.rev (lstrip s))).

Fixpoint split (sep : ascii) (s : string) : list string :=
  match s with
  | EmptyString => [EmptyString]
  | String a s' =>
      if bool_decide (a = sep) then EmptyString :: split sep s'
      else match split sep s' with
           | piece :: pieces => String a piece :: pieces
           | [] => [String a EmptyString]
           end
  end.

Definition nonempty (s : string) : bool := negb (bool_decide (s = EmptyString)).

(** ** JSON values, as [json.loads] returns them *)

#[local] Unset Elimination Schemes.
Inductive json :=
  | JNull
  | JBool (b : bool)
  | JNumber (n : Z)
  | JString (s : string)
  | JArray (items : list json)
  | JObject (fields : list (string * json)).
#[local] Set Elimination Schemes.

(** ** Orderings of the memory queries *)

(** [order_by(desc(Memory.created_at))] *)
Definition recency_desc : relation Memory.t :=
  fun a b => Memory.created_at b <= Memory.created_at a.

(** [order_by(desc(Memory.relevance_score), desc(Memory.created_at))] *)
Definition relevance_recency_desc : relation Memory.t :=
  fun a b =>
    Memory.relevance_score b < Memory.relevance_score a \/
    (Memory.relevance_score a = Memory.relevance_score b /\
     Memory.created_at b <= Memory.created_at a).

(** [order_by(desc(Session.created_at))] *)
Definition session_recency_desc : relation SessionModel.t :=
  fun a b => SessionModel.created_at b <= SessionModel.created_at a.

#[global] Instance recency_desc_dec : RelDecision recency_desc.
Proof. intros a b. unfold recency_desc. apply _. Defined.

#[global] Instance relevance_recency_desc_dec :
  RelDecision relevance_recency_desc.
Proof. intros a b. unfold relevance_recency_desc. apply _. Defined.

#[global] Instance session_recency_desc_dec :
  RelDecision session_recency_desc.
Proof. intros a b. unfold session_recency_desc. apply _. Defined.

#[global] Instance recency_desc_trans : Transitive recency_desc.
Proof. intros a b c. unfold recency_desc. lia. Qed.

#[global] Instance recency_desc_total : Total recency_desc.
Proof. intros a b. unfold recency_desc. lia. Qed.

#[global] Instance relevance_recency_desc_trans :
  Transitive relevance_recency_desc.
Proof. intros a b c. unfold relevance_recency_desc. lia. Qed.

#[global] Instance relevance_recency_desc_total :
  Total relevance_recency_desc.
Proof. intros a b. unfold relevance_recency_desc. lia. Qed.

(** [order_by]: the rows sorted by the ordering (rows that compare equal
    come in an order the engine chooses; here, the one of the merge). *)
Definition order_by {A} (R : relation A) `{!RelDecision R} (rows : list A)
  : list A := merge_sort R rows.

(** ** The memory repository ([src/memory/repository.py]) *)

Section Repository.

(** [utc k] is the value of the [k]-th call of [datetime.utcnow()];
    [json_loads] is [json.loads], [None] when it raises; [str_strip] is
    [str.strip()]. *)
Variable utc : nat -> datetime.
Variable json_loads : string -> option json.
Variable str_strip : string -> string.

Definition utcnow : M datetime :=
  fun s => (utc (clock_reads s),
            mkStore (users s) (memories s) (sessions s) (achievements s)
                    (S (clock_reads s))).

(** *** User operations *)

Definition by_user_key (user_id : string) (u : User.t) : bool :=
  bool_decide (User.user_id u = user_id).

Definition by_user_pk (user_id : Z) (u : User.t) : bool :=
  bool_decide (User.id u = user_id).

Definition get_or_create_user (user_id : string) : M User.t :=
  let* s := get in
  match first (by_user_key user_id) (users s) with
  | Some user => ret user
  | None =>
      let* now := utcnow in
      let user := User.mk (next_id (User.id <$> users s)) user_id now
                          None None 0 0 0 1 in
      let* _ := modify (fun s => with_users (users s ++ [user]) s) in
      ret user
  end.

(** *** Memory operations *)

Definition create_memory (user_id : Z) (observation : string)
    (interpretation category : option string) (relevance_score : Z)
    (follow_up_question people_mentioned : option string)
    (is_identity_statement is_breakthrough_moment : bool) : M Memory.t :=
  let* now := utcnow in
  let* s := get in
  let memory := Memory.mk (next_id (Memory.id <$> memories s)) user_id
                  observation interpretation category now relevance_score
                  follow_up_question people_mentioned
                  is_identity_statement is_breakthrough_moment in
  let* _ := modify (fun s => with_memories (memories s ++ [memory]) s) in
  ret memory.

Definition of_user (user_id : Z) (m : Memory.t) : bool :=
  bool_decide (Memory.user_id m = user_id).

Definition in_category (category : string) (m : Memory.t) : bool :=
  bool_decide (Memory.category m = Some category).

Definition get_recent_memories (user_id : Z) (limit : Z)
    (category : option string) : M (list Memory.t) :=
  let* s := get in
  let query := List.filter (of_user user_id) (memories s) in
  let query :=
    match category with
    | Some c => if nonempty c then List.filter (in_category c) query
                else query
    | None => query
    end in
  ret (sql_limit limit (order_by recency_desc query)).

Definition at_least (min_relevance : Z) (m : Memory.t) : bool :=
  bool_decide (min_relevance <= Memory.relevance_score m).

Definition get_relevant_memories (user_id : Z) (min_relevance : Z)
    (limit : Z) : M (list Memory.t) :=
  let* s := get in
  ret (sql_limit limit
         (order_by relevance_recency_desc
            (List.filter (at_least min_relevance)
               (List.filter (of_user user_id) (memories s))))).

Definition get_memories_by_category (user_id : Z) (category : string)
  : M (list Memory.t) :=
  let* s := get in
  ret (order_by recency_desc
         (List.filter (in_category category)
            (List.filter (of_user user_id) (memories s)))).

Definition by_memory_pk (memory_id : Z) (m : Memory.t) : bool :=
  bool_decide (Memory.id m = memory_id).

Definition update_memory_relevance (memory_id : Z) (new_score : Z)
  : M (option Memory.t) :=
  let* s := get in
  match first (by_memory_pk memory_id) (memories s) with
  | Some memory =>
      let* _ := modify (fun s =>
        with_memories
          (update_first (by_memory_pk memory_id)
             (Memory.set_relevance_score new_score) (memories s)) s) in
      ret (Some (Memory.set_relevance_score new_score memory))
  | None => ret None
  end.

(** *** Session operations *)

Definition create_session_record (user_id : Z)
    (user_input agent_response : string) : M SessionModel.t :=
  let* now := utcnow in
  let* s := get in
  let session := SessionModel.mk (next_id (SessionModel.id <$> sessions s))
                   user_id user_input agent_response now in
  let* _ := modify (fun s => with_sessions (sessions s ++ [session]) s) in
  ret session.

Definition get_recent_sessions (user_id : Z) (limit : Z)
  : M (list SessionModel.t) :=
  let* s := get in
  ret (sql_limit limit
         (order_by session_recency_desc
            (List.filter
               (fun r => bool_decide (SessionModel.user_id r = user_id))
               (sessions s)))).

(** *** Relationship tracking *)

Definition _calculate_connection_depth (user : User.t) : M Z :=
  let score := 1 in
  let score := if bool_decide (3 <= User.total_sessions user) then 2
               else score in
  let score := if bool_decide (10 <= User.total_sessions user) then 3
               else score in
  let score := if bool_decide (25 <= User.total_sessions user) then 4
               else score in
  let score := if bool_decide (50 <= User.total_sessions user) then 5
               else score in
  let score := if bool_decide (3 <= User.current_streak user)
               then Z.min 5 (score + 1) else score in
  match User.first_interaction_date user with
  | Some first_date =>
      let* now := utcnow in
      let days_together := timedelta_days now first_date in
      let score := if bool_decide (30 <= days_together)
                   then Z.min 5 (score + 1) else score in
      ret (Z.min 5 (Z.max 1 score))
  | None => ret (Z.min 5 (Z.max 1 score))
  end.

(** The streak after an interaction at [now] (lines 266-282). *)
Definition calculate_streak (now : datetime) (user : User.t) : User.t :=
  let today := date now in
  match User.last_interaction_date user with
  | Some last =>
      let last_date := date last in
      let days_diff := today - last_date in
      if bool_decide (days_diff = 0) then user
      else if bool_decide (days_diff = 1)
      then User.set_current_streak (User.current_streak user + 1) user
      else User.set_current_streak 1 user
  | None => User.set_current_streak 1 user
  end.

Definition update_user_stats (user_id : Z) : M (option User.t) :=
  let* s := get in
  match first (by_user_pk user_id) (users s) with
  | None => ret None
  | Some user =>
      let* now := utcnow in
      let user :=
        match User.first_interaction_date user with
        | None => User.set_first_interaction_date (Some now) user
        | Some _ => user
        end in
      let user := calculate_streak now user in
      let user :=
        if bool_decide (User.longest_streak user < User.current_streak user)
        then User.set_longest_streak (User.current_streak user) user
        else user in
      let user := User.set_last_interaction_date (Some now) user in
      let user :=
        User.set_total_sessions (User.total_sessions user + 1) user in
      let* depth := _calculate_connection_depth user in
      let user := User.set_connection_depth depth user in
      let* _ := modify (fun s =>
        with_users
          (update_first (by_user_pk user_id) (fun _ => user) (users s)) s) in
      ret (Some user)
  end.

(** *** Achievement operations *)

Definition of_achievement (user_id : Z) (achievement_key : string)
    (a : Achievement.t) : bool :=
  bool_decide (Achievement.user_id a = user_id) &&
  bool_decide (Achievement.achievement_key a = achievement_key).

Definition has_achievement (user_id : Z) (achievement_key : string)
  : M bool :=
  let* s := get in
  ret (match first (of_achievement user_id achievement_key) (achievements s)
       with Some _ => true | None => false end).

Definition unlock_achievement (user_id : Z) (achievement_key : string)
  : M (option Achievement.t) :=
  let* has := has_achievement user_id achievement_key in
  if has then ret None
  else
    let* now := utcnow in
    let* s := get in
    let achievement :=
      Achievement.mk (next_id (Achievement.id <$> achievements s)) user_id
                     achievement_key now false in
    let* _ := modify (fun s =>
      with_achievements (achievements s ++ [achievement]) s) in
    ret (Some achievement).

Definition by_achievement_pk (achievement_id : Z) (a : Achievement.t)
  : bool := bool_decide (Achievement.id a = achievement_id).

Definition mark_achievement_celebrated (achievement_id : Z)
  : M (option Achievement.t) :=
  let* s := get in
  match first (by_achievement_pk achievement_id) (achievements s) with
  | Some achievement =>
      let* _ := modify (fun s =>
        with_achievements
          (update_first (by_achievement_pk achievement_id)
             (Achievement.set_celebrated true) (achievements s)) s) in
      ret (Some (Achievement.set_celebrated true achievement))
  | None => ret None
  end.

(** The names one memory adds to the set [people] (lines 574-586). *)
Definition add_parsed (people : gset string) (p : json) : gset string :=
  match p with
  | JString name =>
      if nonempty name then {[str_strip name]} ∪ people else people
  | _ => people
  end.

Definition add_piece (people : gset string) (p : string) : gset string :=
  if nonempty (str_strip p) then {[str_strip p]} ∪ people else people.

Definition add_people (people : gset string) (mem : Memory.t)
  : gset string :=
  match Memory.people_mentioned mem with
  | Some mentioned =>
      if nonempty mentioned then
        match json_loads mentioned with
        | Some (JArray parsed) => foldl add_parsed people parsed
        | Some _ => people
        | None => foldl add_piece people (split "," mentioned)
        end
      else people
  | None => people
  end.

(** The table of achievement keys and their conditions (lines 590-613). *)
Definition achievement_checks
    (total_sessions current_streak connection_depth breakthrough_count
     identity_count people_count memory_count : Z) : list (string * bool) :=
  [ ("first_step", bool_decide (1 <= total_sessions));
    ("opening_up", bool_decide (5 <= memory_count));
    ("three_day", bool_decide (3 <= current_streak));
    ("week_warrior", bool_decide (7 <= current_streak));
    ("month_master", bool_decide (30 <= current_streak));
    ("trust_builder", bool_decide (2 <= connection_depth));
    ("growing_closer", bool_decide (3 <= connection_depth));
    ("deep_bond", bool_decide (4 <= connection_depth));
    ("truly_known", bool_decide (5 <= connection_depth));
    ("first_insight", bool_decide (1 <= breakthrough_count));
    ("insight_seeker", bool_decide (5 <= breakthrough_count));
    ("self_explorer", bool_decide (10 <= identity_count));
    ("relationship_mapper", bool_decide (5 <= people_count)) ].

(** The conditions as the pass evaluates them on a store. *)
Definition evaluate_checks (user_id : Z) (user : User.t) (s : Store)
  : list (string * bool) :=
  let total_sessions := py_or (User.total_sessions user) 0 in
  let current_streak := py_or (User.current_streak user) 0 in
  let connection_depth := py_or (User.connection_depth user) 1 in
  let breakthrough_count :=
    count (List.filter Memory.is_breakthrough_moment
             (List.filter (of_user user_id) (memories s))) in
  let identity_count :=
    count (List.filter Memory.is_identity_statement
             (List.filter (of_user user_id) (memories s))) in
  let memories := fst (get_recent_memories user_id 1000 None s) in
  let people := foldl add_people ∅ memories in
  let people_count := Z.of_nat (size people) in
  achievement_checks total_sessions current_streak connection_depth
    breakthrough_count identity_count people_count (count memories).

(** The loop over the table (lines 615-619). *)
Fixpoint unlock_each (user_id : Z) (checks : list (string * bool))
  : M (list Achievement.t) :=
  match checks with
  | [] => ret []
  | (achievement_key, condition) :: checks' =>
      if condition then
        let* achievement := unlock_achievement user_id achievement_key in
        let* newly_unlocked := unlock_each user_id checks' in
        ret (match achievement with
             | Some a => a :: newly_unlocked
             | None => newly_unlocked
             end)
      else unlock_each user_id checks'
  end.

Definition check_and_unlock_achievements (user_id : Z)
  : M (list Achievement.t) :=
  let* s := get in
  match first (by_user_pk user_id) (users s) with
  | None => ret []
  | Some user => unlock_each user_id (evaluate_checks user_id user s)
  end.

(** ** The memory service ([src/memory/service.py]) *)

(** [json_dumps] is [json.dumps] on a list. *)
Variable json_dumps : list json -> string.

(** The value under ["people_mentioned"]: a list, or anything else (text). *)
Inductive people_value :=
  | PeopleList (names : list json)
  | PeopleText (text : string).

(** One extracted observation: a dictionary whose keys may be absent. *)
Record Observation := mkObservation {
  obs_observation : option string;
  obs_interpretation : option string;
  obs_category : option string;
  obs_relevance_score : option Z;
  obs_follow_up_question : option string;
  obs_people_mentioned : option people_value;
  obs_is_identity_statement : option bool;
  obs_is_breakthrough_moment : option bool
}.

Definition store_observation (user_id : string) (observation : string)
    (interpretation category : option string) (relevance_score : Z)
  : M Memory.t :=
  let* user := get_or_create_user user_id in
  create_memory (User.id user) observation interpretation category
                relevance_score None None false false.

Definition people_json (obs : Observation) : option string :=
  match obs_people_mentioned obs with
  | Some (PeopleList names) => Some (json_dumps names)
  | Some (PeopleText text) => Some text
  | None => None
  end.

(** The loop of [batch_store_observations] (lines 90-111). *)
Fixpoint store_each (user_pk : Z) (observations : list Observation)
  : M (list Memory.t) :=
  match observations with
  | [] => ret []
  | obs :: observations' =>
      match obs_observation obs with
      | Some text =>
          if nonempty text then
            let* memory :=
              create_memory user_pk text (obs_interpretation obs)
                (obs_category obs) (default 5 (obs_relevance_score obs))
                (obs_follow_up_question obs) (people_json obs)
                (default false (obs_is_identity_statement obs))
                (default false (obs_is_breakthrough_moment obs)) in
            let* memories := store_each user_pk observations' in
            ret (memory :: memories)
          else store_each user_pk observations'
      | None => store_each user_pk observations'
      end
  end.

Definition batch_store_observations (user_id : string)
    (observations : list Observation) : M (list Memory.t) :=
  let* user := get_or_create_user user_id in
  store_each (User.id user) observations.

Definition build_context_for_interaction (user_id : string)
    (include_recent include_relevant : Z) : M (gmap string (list Memory.t)) :=
  let* user := get_or_create_user user_id in
  let* recent_memories :=
    get_recent_memories (User.id user) include_recent None in
  let* relevant_memories :=
    get_relevant_memories (User.id user) 7 include_relevant in
  ret (<["recent" := recent_memories]>
         (<["relevant" := relevant_memories]> ∅)).

Definition get_pattern_history (user_id : string) (category : string)
  : M (list Memory.t) :=
  let* user := get_or_create_user user_id in
  get_memories_by_category (User.id user) category.

Definition mark_memory_as_significant (memory_id : Z)
  : M (option Memory.t) :=
  update_memory_relevance memory_id 9.

Definition decay_memory_relevance (memory_id : Z) (decay_amount : Z)
  : M (option Memory.t) :=
  update_memory_relevance memory_id 3.

Definition log_interaction (user_id : string)
    (user_input agent_response : string) : M unit :=
  let* user := get_or_create_user user_id in
  let* _ := create_session_record (User.id user) user_input agent_response in
  ret tt.

(** The sessions [get_recent_interaction_context] reports, each with its
    [created_at] (the source renders it with [isoformat]). *)
Definition get_recent_interaction_context (user_id : string) (limit : Z)
  : M (list (string * string * datetime)) :=
  let* user := get_or_create_user user_id in
  let* sessions := get_recent_sessions (User.id user) limit in
  ret ((fun r => (SessionModel.user_input r, SessionModel.agent_response r,
                  SessionModel.created_at r)) <$>
       List.filter (fun r => nonempty (SessionModel.user_input r) &&
                             nonempty (SessionModel.agent_response r))
                   sessions).

(** ** The public operations as calls, and the states they reach *)

Inductive Call :=
  | GetOrCreateUser (user_id : string)
  | CreateMemory (user_id : Z) (observation : string)
      (interpretation category : option string) (relevance_score : Z)
      (follow_up_question people_mentioned : option string)
      (is_identity_statement is_breakthrough_moment : bool)
  | UpdateMemoryRelevance (memory_id new_score : Z)
  | CreateSessionRecord (user_id : Z) (user_input agent_response : string)
  | UpdateUserStats (user_id : Z)
  | UnlockAchievement (user_id : Z) (achievement_key : string)
  | MarkAchievementCelebrated (achievement_id : Z)
  | CheckAndUnlockAchievements (user_id : Z)
  | StoreObservation (user_id : string) (observation : string)
      (interpretation category : option string) (relevance_score : Z)
  | BatchStoreObservations (user_id : string)
      (observations : list Observation)
  | BuildContextForInteraction (user_id : string)
      (include_recent include_relevant : Z)
  | GetPatternHistory (user_id category : string)
  | MarkMemoryAsSignificant (memory_id : Z)
  | DecayMemoryRelevance (memory_id decay_amount : Z)
  | LogInteraction (user_id user_input agent_response : string)
  | GetRecentInteractionContext (user_id : string) (limit : Z).

(** The store after a call (the read-only queries of the repository leave
    it as it is and are not listed). *)
Definition run (c : Call) (s : Store) : Store :=
  match c with
  | GetOrCreateUser u => snd (get_or_create_user u s)
  | CreateMemory u o i c r f p ids brk =>
      snd (create_memory u o i c r f p ids brk s)
  | UpdateMemoryRelevance m n => snd (update_memory_relevance m n s)
  | CreateSessionRecord u i a => snd (create_session_record u i a s)
  | UpdateUserStats u => snd (update_user_stats u s)
  | UnlockAchievement u k => snd (unlock_achievement u k s)
  | MarkAchievementCelebrated a => snd (mark_achievement_celebrated a s)
  | CheckAndUnlockAchievements u => snd (check_and_unlock_achievements u s)
  | StoreObservation u o i c r => snd (store_observation u o i c r s)
  | BatchStoreObservations u obs => snd (batch_store_observations u obs s)
  | BuildContextForInteraction u a b =>
      snd (build_context_for_interaction u a b s)
  | GetPatternHistory u c => snd (get_pattern_history u c s)
  | MarkMemoryAsSignificant m => snd (mark_memory_as_significant m s)
  | DecayMemoryRelevance m d => snd (decay_memory_relevance m d s)
  | LogInteraction u i a => snd (log_interaction u i a s)
  | GetRecentInteractionContext u l =>
      snd (get_recent_interaction_context u l s)
  end.

Inductive reachable : Store -> Prop :=
  | reachable_empty : reachable empty_store
  | reachable_run c s : reachable s -> reachable (run c s).

(** A relevance score on the documented 1-10 scale. *)
Definition on_scale (score : Z) : Prop := 1 <= score <= 10.

(** A call whose relevance scores, where it carries any, are on the scale. *)
Definition scores_on_scale (c : Call) : Prop :=
  match c with
  | CreateMemory _ _ _ _ score _ _ _ _ => on_scale score
  | UpdateMemoryRelevance _ score => on_scale score
  | StoreObservation _ _ _ _ score => on_scale score
  | BatchStoreObservations _ observations =>
      Forall (fun obs => on_scale (default 5 (obs_relevance_score obs)))
             observations
  | _ => True
  end.

(** The states reached by calls whose scores are on the scale. *)
Inductive reachable_on_scale : Store -> Prop :=
  | on_scale_empty : reachable_on_scale empty_store
  | on_scale_run c s :
      reachable_on_scale s -> scores_on_scale c ->
      reachable_on_scale (run c s).

End Repository.

(** ** Properties of rows and stores *)

(** The connection depth in the words of the specification: a base on the
    session thresholds, one more for a streak of three, one more for
    thirty days together, clamped to 1..5. *)
Definition session_base (total_sessions : Z) : Z :=
  if bool_decide (50 <= total_sessions) then 5
  else if bool_decide (25 <= total_sessions) then 4
  else if bool_decide (10 <= total_sessions) then 3
  else if bool_decide (3 <= total_sessions) then 2
  else 1.

Definition connection_depth_spec (total_sessions current_streak : Z)
    (days_since_first : option Z) : Z :=
  let streak_bonus := if bool_decide (3 <= current_streak) then 1 else 0 in
  let days_bonus :=
    match days_since_first with
    | Some days => if bool_decide (30 <= days) then 1 else 0
    | None => 0
    end in
  Z.max 1 (Z.min 5 (session_base total_sessions + streak_bonus + days_bonus)).

Definition user_invariant (u : User.t) : Prop :=
  User.current_streak u <= User.longest_streak u /\
  1 <= User.connection_depth u <= 5.

Definition achievement_pair (a : Achievement.t) : Z * string :=
  (Achievement.user_id a, Achievement.achievement_key a).

Definition relevance_on_scale (s : Store) : Prop :=
  Forall (fun m => on_scale (Memory.relevance_score m)) (memories s).

(** Two versions of a memory that agree on all but the relevance score. *)
Definition same_but_relevance (m m' : Memory.t) : Prop :=
  Memory.id m' = Memory.id m /\
  Memory.user_id m' = Memory.user_id m /\
  Memory.observation m' = Memory.observation m /\
  Memory.interpretation m' = Memory.interpretation m /\
  Memory.category m' = Memory.category m /\
  Memory.created_at m' = Memory.created_at m /\
  Memory.follow_up_question m' = Memory.follow_up_question m /\
  Memory.people_mentioned m' = Memory.people_mentioned m /\
  Memory.is_identity_statement m' = Memory.is_identity_statement m /\
  Memory.is_breakthrough_moment m' = Memory.is_breakthrough_moment m.

(** The calls that go through [update_memory_relevance]. *)
Definition writes_relevance (c : Call) : bool :=
  match c with
  | UpdateMemoryRelevance _ _ | MarkMemoryAsSignificant _
  | DecayMemoryRelevance _ _ => true
  | _ => false
  end.

Definition same_but_celebrated (a a' : Achievement.t) : Prop :=
  Achievement.id a' = Achievement.id a /\
  Achievement.user_id a' = Achievement.user_id a /\
  Achievement.achievement_key a' = Achievement.achievement_key a /\
  Achievement.unlocked_at a' = Achievement.unlocked_at a.

Definition is_celebrate (c : Call) : bool :=
  match c with MarkAchievementCelebrated _ => true | _ => false end.

(** ** Sample data *)

(** A clock that starts on day 19000 and advances by ten hours a read. *)
Definition sample_utc (k : nat) : datetime :=
  19000 * us_per_day + Z.of_nat k * 36000000000.

(** A [json.loads] that accepts nothing, and the matching [json.dumps]. *)
Definition sample_loads (text : string) : option json := None.

Definition sample_dumps (names : list json) : string := "[]".

Definition sample_run : Call -> Store -> Store :=
  run sample_utc sample_loads ascii_strip sample_dumps.

Definition play (calls : list Call) (s : Store) : Store :=
  foldl (fun s c => sample_run c s) s calls.

(** A user after a first interaction. *)
Definition one_user : Store :=
  play [GetOrCreateUser "ada"; UpdateUserStats 1] empty_store.

Definition note (text : string) (score : Z) : Call :=
  CreateMemory 1 text None None score None None false false.

(** The row of that user. *)
Definition ada : User.t :=
  User.mk 1 "ada" 1641600000000000 (Some 1641636000000000)
          (Some 1641636000000000) 1 1 1 1.

(** The same user with four memories, and with a fifth. *)
Definition four_memories : Store :=
  play [GetOrCreateUser "ada"; note "hesitates" 8; note "waits" 5;
        note "closes early" 9; note "anxious" 8] empty_store.

Definition five_memories : Store := sample_run (note "perfect" 7) four_memories.

(** What memory extraction may hand over: a score of 11. *)
Definition off_scale_observation : Observation :=
  mkObservation (Some "afraid of being wrong") None None (Some 11) None None
                None None.

Definition off_scale_store : Store :=
  sample_run (BatchStoreObservations "ada" [off_scale_observation])
             empty_store.

(** A store with one unlocked achievement. *)
Definition one_achievement : Store :=
  sample_run (CheckAndUnlockAchievements 1) one_user.

(** The user after a first interaction and one memory that names five
    people, as comma-separated text. *)
Definition five_people : Store :=
  sample_run
    (CreateMemory 1 "family dinner" None None 6 None
       (Some "Ann, Bob,Cy , Dee,Eve") false false)
    one_user.

(** ** Further queries of the repository *)

Definition has_follow_up (m : Memory.t) : bool :=
  match Memory.follow_up_question m with Some _ => true | None => false end.

Definition get_identity_statements (user_id limit : Z)
  : M (list Memory.t) :=
  let* s := get in
  ret (sql_limit limit
         (order_by recency_desc
            (List.filter Memory.is_identity_statement
               (List.filter (of_user user_id) (memories s))))).

Definition get_breakthrough_moments (user_id limit : Z)
  : M (list Memory.t) :=
  let* s := get in
  ret (sql_limit limit
         (order_by recency_desc
            (List.filter Memory.is_breakthrough_moment
               (List.filter (of_user user_id) (memories s))))).

Definition get_follow_up_opportunities (user_id limit : Z)
  : M (list Memory.t) :=
  let* s := get in
  ret (sql_limit limit
         (order_by recency_desc
            (List.filter has_follow_up
               (List.filter (of_user user_id) (memories s))))).

(** [order_by(desc(Achievement.unlocked_at))] and
    [order_by(Achievement.unlocked_at)] *)
Definition unlocked_desc : relation Achievement.t :=
  fun a b => Achievement.unlocked_at b <= Achievement.unlocked_at a.

Definition unlocked_asc : relation Achievement.t :=
  fun a b => Achievement.unlocked_at a <= Achievement.unlocked_at b.

#[global] Instance unlocked_desc_dec : RelDecision unlocked_desc.
Proof. intros a b. unfold unlocked_desc. apply _. Defined.

#[global] Instance unlocked_asc_dec : RelDecision unlocked_asc.
Proof. intros a b. unfold unlocked_asc. apply _. Defined.

#[global] Instance unlocked_desc_trans : Transitive unlocked_desc.
Proof. intros a b c. unfold unlocked_desc. lia. Qed.

#[global] Instance unlocked_desc_total : Total unlocked_desc.
Proof. intros a b. unfold unlocked_desc. lia. Qed.

#[global] Instance unlocked_asc_trans : Transitive unlocked_asc.
Proof. intros a b c. unfold unlocked_asc. lia. Qed.

#[global] Instance unlocked_asc_total : Total unlocked_asc.
Proof. intros a b. unfold unlocked_asc. lia. Qed.

Definition achievement_of (user_id : Z) (a : Achievement.t) : bool :=
  bool_decide (Achievement.user_id a = user_id).

Definition get_user_achievements (user_id : Z) : M (list Achievement.t) :=
  let* s := get in
  ret (order_by unlocked_desc
         (List.filter (achievement_of user_id) (achievements s))).

Definition uncelebrated (a : Achievement.t) : bool :=
  negb (Achievement.celebrated a).

Definition get_uncelebrated_achievements (user_id : Z)
  : M (list Achievement.t) :=
  let* s := get in
  ret (order_by unlocked_asc
         (List.filter uncelebrated
            (List.filter (achievement_of user_id) (achievements s)))).

(** ** Reports, formatting and one turn of conversation *)

(** The dictionary [get_user_relationship_stats] returns. *)
Record RelationshipStats := mkRelationshipStats {
  stats_days_together : Z;
  stats_total_sessions : Z;
  stats_current_streak : Z;
  stats_longest_streak : Z;
  stats_connection_depth : Z;
  stats_connection_depth_label : string
}.

(** The dictionary [get_streak_status] returns. *)
Record StreakStatus := mkStreakStatus {
  status_current_streak : Z;
  status_streak_at_risk : bool;
  status_has_interacted_today : bool;
  status_longest_streak : Z
}.

Definition depth_labels : gmap Z string :=
  <[1 := "Getting to know each other"]>
    (<[2 := "Building trust"]>
       (<[3 := "Growing closer"]>
          (<[4 := "Deep connection"]>
             (<[5 := "Truly understood"]> ∅)))).

Definition newline : string := String "010"%char EmptyString.

(** [sep.join(parts)] *)
Definition join (sep : string) (parts : list string) : string :=
  match parts with
  | [] => EmptyString
  | part :: parts' => foldl (fun acc p => acc +:+ sep +:+ p) part parts'
  end.

(** One entry of [format_memories_for_context] (service.py 282-287). *)
Definition format_memory (mem : Memory.t) : string :=
  let tag :=
    match Memory.category mem with
    | Some c => if nonempty c then "[" +:+ c +:+ "]" else "[observation]"
    | None => "[observation]"
    end in
  let parts := [tag; Memory.observation mem] in
  let parts :=
    match Memory.interpretation mem with
    | Some i => if nonempty i then parts ++ ["→ " +:+ i] else parts
    | None => parts
    end in
  join " " parts.

Definition format_memories_for_context (memories : list Memory.t) : string :=
  match memories with
  | [] => "No prior observations available."
  | _ => join newline (format_memory <$> memories)
  end.

(** [l[-2:]] *)
Definition last_two {A} (l : list A) : list A :=
  drop (length l - 2) l.

(** [SessionService._format_recent_context] ([src/sessions/service.py]). *)
Definition _format_recent_context
    (recent_sessions : list (string * string * datetime)) : string :=
  match recent_sessions with
  | [] => EmptyString
  | _ =>
      join newline
        (concat ((fun session =>
                    ["Trader: " +:+ fst (fst session);
                     "You: " +:+ snd (fst session)])
                 <$> last_two recent_sessions))
  end.

(** The list [batch_store_observations] is given in a turn.
    [extract_memories] hands over whatever JSON list the model wrote
    ([src/brain/interpreter.py] 163-164): an element is a dictionary, which
    the loop reads with [obs.get] as an [Observation], or it is no
    dictionary. *)
Inductive extracted :=
  | ObservationDict (obs : Observation)
  | NotADict.

(** How a turn ends: with the response, or with the exception of a model
    call, or with the exception of [batch_store_observations]. *)
Inductive turn_result :=
  | Reply (agent_response : string)
  | ModelError
  | StoreError.

Section Turn.

Variable utc : nat -> datetime.
Variable json_dumps : list json -> string.

(** The two calls of the language model in a turn; [None] when the call
    raises.  [extract_memories] returns a list, empty when the text of the
    model is no JSON list. *)
Variable generate_response :
  string -> list Memory.t -> list Memory.t ->
  list (string * string * datetime) -> RelationshipStats -> option string.
Variable extract_memories :
  string -> string -> string -> option (list extracted).

Definition get_user_relationship_stats (user_id : Z) : M RelationshipStats :=
  let* s := get in
  match first (by_user_pk user_id) (users s) with
  | None =>
      ret (mkRelationshipStats 0 0 0 0 1 "Getting to know each other")
  | Some user =>
      let* days_together :=
        match User.first_interaction_date user with
        | Some first_date =>
            let* now := utcnow utc in
            ret (timedelta_days now first_date + 1)
        | None => ret 0
        end in
      ret (mkRelationshipStats days_together
             (py_or (User.total_sessions user) 0)
             (py_or (User.current_streak user) 0)
             (py_or (User.longest_streak user) 0)
             (py_or (User.connection_depth user) 1)
             (default "Getting to know each other"
                (depth_labels !! py_or (User.connection_depth user) 1)))
  end.

Definition get_streak_status (user_id : Z) : M StreakStatus :=
  let* s := get in
  match first (by_user_pk user_id) (users s) with
  | None => ret (mkStreakStatus 0 false false 0)
  | Some user =>
      let* now := utcnow utc in
      let today := date now in
      let has_interacted_today :=
        match User.last_interaction_date user with
        | Some last => bool_decide (date last = today)
        | None => false
        end in
      let streak_at_risk :=
        match User.last_interaction_date user with
        | Some last =>
            bool_decide (0 < User.current_streak user) &&
            negb has_interacted_today
        | None => false
        end in
      ret (mkStreakStatus (py_or (User.current_streak user) 0)
             streak_at_risk has_interacted_today
             (py_or (User.longest_streak user) 0))
  end.

(** The loop of [batch_store_observations] ([src/memory/service.py]
    90-111) on such a list.  On an element that is no dictionary [obs.get]
    raises (line 92): the loop ends there, [None], and the memories of the
    elements before it stay committed. *)
Fixpoint store_extracted (user_pk : Z) (observations : list extracted)
  : M (option (list Memory.t)) :=
  match observations with
  | [] => ret (Some [])
  | NotADict :: _ => ret None
  | ObservationDict obs :: observations' =>
      match obs_observation obs with
      | Some text =>
          if nonempty text then
            let* memory :=
              create_memory utc user_pk text (obs_interpretation obs)
                (obs_category obs) (default 5 (obs_relevance_score obs))
                (obs_follow_up_question obs) (people_json json_dumps obs)
                (default false (obs_is_identity_statement obs))
                (default false (obs_is_breakthrough_moment obs)) in
            let* memories := store_extracted user_pk observations' in
            ret (cons memory <$> memories)
          else store_extracted user_pk observations'
      | None => store_extracted user_pk observations'
      end
  end.

Definition batch_store_extracted (user_id : string)
    (observations : list extracted) : M (option (list Memory.t)) :=
  let* user := get_or_create_user utc user_id in
  store_extracted (User.id user) observations.

(** [SessionService.process_user_input] ([src/sessions/service.py] 27-100).
    An exception ends the turn where it stands: nothing in the method
    catches it. *)
Definition process_user_input (user_input : string) (user_id : string)
  : M turn_result :=
  let* context := build_context_for_interaction utc user_id 5 5 in
  let* recent_sessions := get_recent_interaction_context utc user_id 3 in
  let* user := get_or_create_user utc user_id in
  let* user_stats := get_user_relationship_stats (User.id user) in
  match generate_response user_input
          (default [] (context !! "recent"))
          (default [] (context !! "relevant"))
          recent_sessions user_stats with
  | None => ret ModelError
  | Some agent_response =>
      match extract_memories user_input agent_response
              (_format_recent_context recent_sessions) with
      | None => ret ModelError
      | Some new_memories =>
          let* stored :=
            match new_memories with
            | [] => ret (Some [])
            | _ => batch_store_extracted user_id new_memories
            end in
          match stored with
          | None => ret StoreError
          | Some _ =>
              let* _ :=
                log_interaction utc user_id user_input agent_response in
              let* user := get_or_create_user utc user_id in
              let* _ := update_user_stats utc (User.id user) in
              ret (Reply agent_response)
          end
      end
  end.

End Turn.

(** ** Consistency of a store *)

(** Primary keys and user keys are unique. *)
Definition keys_unique (s : Store) : Prop :=
  NoDup (User.id <$> users s) /\
  NoDup (User.user_id <$> users s) /\
  NoDup (Memory.id <$> memories s) /\
  NoDup (SessionModel.id <$> sessions s) /\
  NoDup (Achievement.id <$> achievements s).

(** The counters of a user agree with each other. *)
Definition stats_consistent (u : User.t) : Prop :=
  0 <= User.current_streak u /\
  User.current_streak u <= User.longest_streak u /\
  User.longest_streak u <= User.total_sessions u /\
  match User.last_interaction_date u with
  | Some _ =>
      1 <= User.current_streak u /\
      is_Some (User.first_interaction_date u)
  | None =>
      User.total_sessions u = 0 /\ User.first_interaction_date u = None
  end.

(** The user row after lines 262-292 of [update_user_stats], before the
    connection depth is recomputed. *)
Definition stats_after (now : datetime) (user : User.t) : User.t :=
  let user :=
    match User.first_interaction_date user with
    | None => User.set_first_interaction_date (Some now) user
    | Some _ => user
    end in
  let user := calculate_streak now user in
  let user :=
    if bool_decide (User.longest_streak user < User.current_streak user)
    then User.set_longest_streak (User.current_streak user) user
    else user in
  let user := User.set_last_interaction_date (Some now) user in
  User.set_total_sessions (User.total_sessions user + 1) user.

(** A computation keeps a property of the store. *)
Definition preserves (P : Store -> Prop) {A} (c : M A) : Prop :=
  forall s, P s -> P (snd (c s)).

(** ** More sample data *)

(** The sample user after a second interaction, and the row then. *)
Definition two_sessions : Store := sample_run (UpdateUserStats 1) one_user.

Definition ada_again : User.t :=
  User.mk 1 "ada" 1641600000000000 (Some 1641636000000000)
          (Some 1641708000000000) 2 2 2 1.

(** The same user much later on. *)
Definition veteran : User.t :=
  User.mk 1 "ada" 1641600000000000 (Some 1641636000000000)
          (Some 1641636000000000) 12 4 4 1.

(** The third memory of [five_memories]. *)
Definition third_memory : Memory.t :=
  Memory.mk 3 1 "closes early" None None 1641708000000000 9 None None
            false false.

(** A model that always answers and extracts one observation. *)
Definition sample_generate (user_input : string)
    (recent relevant : list Memory.t)
    (recent_sessions : list (string * string * datetime))
    (stats : RelationshipStats) : option string :=
  Some "Tell me more.".


(** A model whose list holds an observation, then text, then another
    observation. *)
Definition sample_extract_text (user_input agent_response history : string)
  : option (list extracted) :=
  Some [ObservationDict
          (mkObservation (Some user_input) None (Some "fear_patterns")
                         (Some 8) None None None None);
        NotADict;
        ObservationDict
          (mkObservation (Some agent_response) None None None None None
                         None None)].

(** ** Lemmas on the query helpers *)

Lemma first_Some {A} (p : A -> bool) (rows : list A) (r : A) :
  first p rows = Some r -> p r = true /\ r ∈ rows.
Proof.
  unfold first. intros H. apply find_some in H as [Hin Hp].
  split; [done | by apply list_elem_of_In].
Qed.

Lemma first_update_first {A} (p : A -> bool) (f : A -> A) rows r :
  first p rows = Some r -> p (f r) = true ->
  first p (update_first p f rows) = Some (f r).
Proof.
  unfold first. induction rows as [|x rows IH]; simpl; [done|].
  destruct (p x) eqn:Hx.
  - intros [= ->] Hf. simpl. by rewrite Hf.
  - intros H Hf. simpl. rewrite Hx. by apply IH.
Qed.

Lemma update_first_None {A} (p : A -> bool) (f : A -> A) rows :
  first p rows = None -> update_first p f rows = rows.
Proof.
  unfold first. induction rows as [|x rows IH]; simpl; [done|].
  destruct (p x); [done|]. intros H. by rewrite IH.
Qed.

Lemma update_first_length {A} (p : A -> bool) (f : A -> A) rows :
  length (update_first p f rows) = length rows.
Proof.
  induction rows as [|x rows IH]; simpl; [done|].
  destruct (p x); simpl; by rewrite ?IH.
Qed.

Lemma update_first_Forall2 {A} (p : A -> bool) (f : A -> A)
    (Q : A -> A -> Prop) rows :
  (forall x, Q x x) -> (forall x, p x = true -> Q x (f x)) ->
  Forall2 Q rows (update_first p f rows).
Proof.
  intros Hrefl Hf. induction rows as [|x rows IH]; simpl; [constructor|].
  destruct (p x) eqn:Hx.
  - constructor; [by apply Hf|]. by apply Forall_Forall2_diag, Forall_true.
  - by constructor.
Qed.

Lemma update_first_Forall {A} (p : A -> bool) (f : A -> A)
    (Q : A -> Prop) rows :
  (forall x, Q x -> Q (f x)) ->
  Forall Q rows -> Forall Q (update_first p f rows).
Proof.
  intros Hf. induction 1 as [|x rows Hx Hrows IH]; simpl; [constructor|].
  destruct (p x); constructor; auto.
Qed.

Lemma sql_limit_length {A} (n : Z) (rows : list A) :
  0 <= n -> Z.of_nat (length (sql_limit n rows)) <= n.
Proof.
  intros Hn. unfold sql_limit.
  destruct (n <? 0) eqn:Hneg; [lia|].
  rewrite length_take. lia.
Qed.

Lemma sql_limit_sublist {A} (n : Z) (rows : list A) :
  exists rest, rows = sql_limit n rows ++ rest.
Proof.
  unfold sql_limit. destruct (n <? 0).
  - exists []. by rewrite app_nil_r.
  - exists (drop (Z.to_nat n) rows). by rewrite take_drop.
Qed.

Lemma sql_limit_Forall {A} (Q : A -> Prop) (n : Z) (rows : list A) :
  Forall Q rows -> Forall Q (sql_limit n rows).
Proof.
  intros H. destruct (sql_limit_sublist n rows) as [rest Hrest].
  rewrite Hrest in H. by apply Forall_app in H as [H _].
Qed.

Lemma sql_limit_StronglySorted {A} (R : relation A) (n : Z) rows :
  StronglySorted R rows -> StronglySorted R (sql_limit n rows).
Proof.
  intros H. destruct (sql_limit_sublist n rows) as [rest Hrest].
  rewrite Hrest in H. by apply StronglySorted_app_1_l in H.
Qed.

Lemma order_by_Forall {A} (R : relation A) `{!RelDecision R}
    (Q : A -> Prop) rows :
  Forall Q rows -> Forall Q (order_by R rows).
Proof.
  unfold order_by. intros H.
  by rewrite (merge_sort_Permutation R rows).
Qed.

Lemma filter_Forall {A} (p : A -> bool) (rows : list A) :
  Forall (fun r => p r = true /\ r ∈ rows) (List.filter p rows).
Proof.
  apply Forall_forall. intros r Hr.
  apply list_elem_of_In, filter_In in Hr as [Hin Hp].
  split; [done | by apply list_elem_of_In].
Qed.

(** ** The engagement statistics *)

Section Properties.

Variable utc : nat -> datetime.
Variable json_loads : string -> option json.
Variable str_strip : string -> string.
Variable json_dumps : list json -> string.

Lemma calculate_streak_fields (now : datetime) (user : User.t) :
  let user' := calculate_streak now user in
  User.id user' = User.id user /\
  User.longest_streak user' = User.longest_streak user /\
  User.total_sessions user' = User.total_sessions user /\
  User.first_interaction_date user' = User.first_interaction_date user /\
  User.last_interaction_date user' = User.last_interaction_date user.
Proof.
  unfold calculate_streak. destruct (User.last_interaction_date user) eqn:E;
    repeat case_bool_decide; simpl; rewrite ?E; done.
Qed.

Lemma calculate_connection_depth_range (user : User.t) (s : Store) :
  1 <= fst (_calculate_connection_depth utc user s) <= 5.
Proof.
  unfold _calculate_connection_depth.
  destruct (User.first_interaction_date user); unfold bind, utcnow, ret;
    simpl; lia.
Qed.

(** The user row [update_user_stats] writes, as a function of the row it
    read and of the two clock values it takes. *)
Lemma update_user_stats_found (user_id : Z) (s : Store) (user : User.t) :
  first (by_user_pk user_id) (users s) = Some user ->
  exists user',
    fst (update_user_stats utc user_id s) = Some user' /\
    users (snd (update_user_stats utc user_id s)) =
      update_first (by_user_pk user_id) (fun _ => user') (users s) /\
    memories (snd (update_user_stats utc user_id s)) = memories s /\
    sessions (snd (update_user_stats utc user_id s)) = sessions s /\
    achievements (snd (update_user_stats utc user_id s)) = achievements s /\
    User.id user' = User.id user /\
    User.current_streak user' =
      User.current_streak (calculate_streak (utc (clock_reads s)) user) /\
    User.longest_streak user' =
      Z.max (User.longest_streak user) (User.current_streak user') /\
    1 <= User.connection_depth user' <= 5.
Proof.
  intros Hfind. unfold update_user_stats, bind, get. simpl. rewrite Hfind.
  simpl.
  set (now := utc (clock_reads s)).
  set (u1 := match User.first_interaction_date user with
             | Some _ => user
             | None => User.set_first_interaction_date (Some now) user
             end).
  assert (Hsame : calculate_streak now u1 =
                  match User.first_interaction_date user with
                  | Some _ => calculate_streak now user
                  | None => User.set_first_interaction_date (Some now)
                              (calculate_streak now user)
                  end).
  { subst u1. destruct (User.first_interaction_date user); [done|].
    unfold calculate_streak. simpl.
    destruct (User.last_interaction_date user);
      repeat case_bool_decide; done. }
  assert (Hcur : User.current_streak (calculate_streak now u1) =
                 User.current_streak (calculate_streak now user)).
  { rewrite Hsame. by destruct (User.first_interaction_date user). }
  assert (Hlong : User.longest_streak (calculate_streak now u1) =
                  User.longest_streak user).
  { rewrite Hsame. pose proof (calculate_streak_fields now user) as (_&H&_).
    by destruct (User.first_interaction_date user). }
  assert (Hid : User.id (calculate_streak now u1) = User.id user).
  { rewrite Hsame. pose proof (calculate_streak_fields now user) as (H&_).
    by destruct (User.first_interaction_date user). }
  match goal with
  | |- context [_calculate_connection_depth utc ?u ?st] =>
      pose proof (calculate_connection_depth_range u st) as Hdepth;
      destruct (_calculate_connection_depth utc u st) as [depth s2] eqn:Hd
  end.
  simpl in *. eexists. split; [reflexivity|].
  assert (Hs2 : users s2 = users s /\ memories s2 = memories s /\
                sessions s2 = sessions s /\ achievements s2 = achievements s).
  { revert Hd. unfold _calculate_connection_depth. simpl.
    match goal with
    | |- context [match ?o with Some _ => _ | None => _ end] => destruct o
    end; unfold bind, utcnow, ret; simpl; intros [= _ <-]; done. }
  destruct Hs2 as (Hu & Hm & Hse & Ha).
  unfold modify, ret, with_users. simpl. rewrite Hu, Hm, Hse, Ha.
  repeat split; try done; try lia.
  - case_bool_decide; simpl; done.
  - case_bool_decide; simpl; lia.
  - case_bool_decide; simpl; lia.
Qed.

(** C10: for a user id that matches no row, [update_user_stats] returns
    [None] and leaves the whole store as it was: no user is created, no
    statistic is written, the clock is not even read. *)
Theorem update_user_stats_unknown_user (user_id : Z) (s : Store) :
  first (by_user_pk user_id) (users s) = None ->
  update_user_stats utc user_id s = (None, s).
Proof.
  intros Hfind. unfold update_user_stats, bind, get, ret.
  by rewrite Hfind.
Qed.

(** C1: one call of [update_user_stats] on an existing user moves the
    streak by the calendar-day gap between today and the day of the last
    interaction: unchanged at gap 0, one more at gap 1, back to 1 at a
    larger gap; a user without a prior interaction gets streak 1; and the
    longest streak becomes the maximum of its old value and the new
    streak.  The row returned is the row stored. *)
Theorem update_user_stats_streak_rule (user_id : Z) (s : Store)
    (user : User.t) :
  first (by_user_pk user_id) (users s) = Some user ->
  exists user',
    fst (update_user_stats utc user_id s) = Some user' /\
    first (by_user_pk user_id) (users (snd (update_user_stats utc user_id s)))
      = Some user' /\
    match User.last_interaction_date user with
    | Some last =>
        let gap := date (utc (clock_reads s)) - date last in
        (gap = 0 -> User.current_streak user' = User.current_streak user) /\
        (gap = 1 ->
           User.current_streak user' = User.current_streak user + 1) /\
        (gap > 1 -> User.current_streak user' = 1)
    | None => User.current_streak user' = 1
    end /\
    User.longest_streak user' =
      Z.max (User.longest_streak user) (User.current_streak user').
Proof.
  intros Hfind.
  destruct (update_user_stats_found user_id s user Hfind)
    as (user' & Hret & Husers & _ & _ & _ & Hid & Hcur & Hlong & _).
  exists user'. split; [done|]. split.
  - rewrite Husers.
    apply (first_update_first _ (fun _ => user') _ user); [done|].
    apply first_Some in Hfind as [Hp _].
    unfold by_user_pk in *. by rewrite Hid.
  - split; [|done]. rewrite Hcur. unfold calculate_streak.
    destruct (User.last_interaction_date user) as [last|]; [|done].
    simpl. repeat case_bool_decide; simpl; lia.
Qed.

(** C2: the connection depth the code computes is the one the
    specification describes: base 1, raised to 2/3/4/5 when the sessions
    reach 3/10/25/50, one more for a streak of at least 3, one more when
    at least 30 days have passed since the first interaction, clamped to
    1..5. *)
Theorem calculate_connection_depth_meets_spec (user : User.t) (s : Store) :
  fst (_calculate_connection_depth utc user s) =
  connection_depth_spec (User.total_sessions user) (User.current_streak user)
    ((fun first_date => timedelta_days (utc (clock_reads s)) first_date)
       <$> User.first_interaction_date user).
Proof.
  unfold _calculate_connection_depth, connection_depth_spec, session_base.
  destruct (User.first_interaction_date user) as [first_date|];
    unfold bind, utcnow, ret; simpl;
    repeat case_bool_decide; lia.
Qed.

(** ** What each operation does to the four tables *)

Ltac run_monad :=
  unfold bind, get, utcnow, modify, ret, with_users, with_memories,
    with_sessions, with_achievements; simpl.

Lemma first_app_new {A} (p : A -> bool) rows r :
  first p rows = None -> p r = true -> first p (rows ++ [r]) = Some r.
Proof.
  unfold first. induction rows as [|x rows IH]; simpl.
  - intros _ ->. done.
  - destruct (p x); [done|]. apply IH.
Qed.

Lemma get_or_create_user_effect (user_id : string) (s : Store) :
  let r := get_or_create_user utc user_id s in
  memories (snd r) = memories s /\
  sessions (snd r) = sessions s /\
  achievements (snd r) = achievements s /\
  (users (snd r) = users s \/
   users (snd r) = users s ++ [fst r] /\
   User.current_streak (fst r) = 0 /\ User.longest_streak (fst r) = 0 /\
   User.connection_depth (fst r) = 1) /\
  first (by_user_key user_id) (users (snd r)) = Some (fst r).
Proof.
  unfold get_or_create_user. run_monad.
  destruct (first (by_user_key user_id) (users s)) as [user|] eqn:Hfind;
    simpl.
  - repeat split; auto.
  - repeat split; auto.
    apply first_app_new; [done|]. unfold by_user_key. simpl.
    by apply bool_decide_eq_true.
Qed.

Lemma create_memory_effect user_id observation interpretation category
    relevance_score follow_up people identity breakthrough (s : Store) :
  let r := create_memory utc user_id observation interpretation category
             relevance_score follow_up people identity breakthrough s in
  users (snd r) = users s /\
  memories (snd r) = memories s ++ [fst r] /\
  sessions (snd r) = sessions s /\
  achievements (snd r) = achievements s /\
  Memory.relevance_score (fst r) = relevance_score /\
  Memory.user_id (fst r) = user_id.
Proof. unfold create_memory. run_monad. done. Qed.

Lemma update_memory_relevance_effect (memory_id new_score : Z) (s : Store) :
  let r := update_memory_relevance memory_id new_score s in
  users (snd r) = users s /\
  memories (snd r) =
    update_first (by_memory_pk memory_id)
      (Memory.set_relevance_score new_score) (memories s) /\
  sessions (snd r) = sessions s /\
  achievements (snd r) = achievements s /\
  clock_reads (snd r) = clock_reads s.
Proof.
  unfold update_memory_relevance. run_monad.
  destruct (first (by_memory_pk memory_id) (memories s)) eqn:Hfind; simpl.
  - done.
  - by rewrite update_first_None.
Qed.

Lemma create_session_record_effect user_id user_input agent_response
    (s : Store) :
  let r := create_session_record utc user_id user_input agent_response s in
  users (snd r) = users s /\
  memories (snd r) = memories s /\
  achievements (snd r) = achievements s.
Proof. unfold create_session_record. run_monad. done. Qed.

Lemma update_user_stats_effect (user_id : Z) (s : Store) :
  let r := update_user_stats utc user_id s in
  memories (snd r) = memories s /\
  sessions (snd r) = sessions s /\
  achievements (snd r) = achievements s /\
  (Forall user_invariant (users s) ->
   Forall user_invariant (users (snd r))).
Proof.
  destruct (first (by_user_pk user_id) (users s)) as [user|] eqn:Hfind.
  - destruct (update_user_stats_found user_id s user Hfind)
      as (user' & _ & Husers & Hm & Hs & Ha & _ & _ & Hlong & Hdepth).
    simpl. repeat split; try done.
    rewrite Husers. apply update_first_Forall. intros _ _.
    unfold user_invariant. lia.
  - unfold update_user_stats, bind, get, ret. cbv beta iota zeta.
    rewrite Hfind. done.
Qed.

Lemma unlock_achievement_effect (user_id : Z) (key : string) (s : Store) :
  let r := unlock_achievement utc user_id key s in
  users (snd r) = users s /\
  memories (snd r) = memories s /\
  sessions (snd r) = sessions s /\
  match first (of_achievement user_id key) (achievements s) with
  | Some _ => r = (None, s)
  | None =>
      exists a, fst r = Some a /\
        achievements (snd r) = achievements s ++ [a] /\
        Achievement.user_id a = user_id /\
        Achievement.achievement_key a = key /\
        Achievement.celebrated a = false
  end.
Proof.
  unfold unlock_achievement, has_achievement. run_monad.
  destruct (first (of_achievement user_id key) (achievements s)); simpl.
  - done.
  - repeat split; eauto 10.
Qed.

Lemma mark_achievement_celebrated_effect (achievement_id : Z) (s : Store) :
  let r := mark_achievement_celebrated achievement_id s in
  users (snd r) = users s /\
  memories (snd r) = memories s /\
  sessions (snd r) = sessions s /\
  achievements (snd r) =
    update_first (by_achievement_pk achievement_id)
      (Achievement.set_celebrated true) (achievements s).
Proof.
  unfold mark_achievement_celebrated. run_monad.
  destruct (first (by_achievement_pk achievement_id) (achievements s))
    eqn:Hfind; simpl.
  - done.
  - by rewrite update_first_None.
Qed.

(** *** The loop of the achievement pass *)

Lemma first_app_Some {A} (p : A -> bool) rows rows' r :
  first p rows = Some r -> first p (rows ++ rows') = Some r.
Proof.
  unfold first. induction rows as [|x rows IH]; simpl; [done|].
  destruct (p x); [done | apply IH].
Qed.

Lemma first_app_None {A} (p : A -> bool) rows rows' :
  first p rows = None -> first p (rows ++ rows') = first p rows'.
Proof.
  unfold first. induction rows as [|x rows IH]; simpl; [done|].
  destruct (p x); [done | apply IH].
Qed.

Lemma has_achievement_unfold (user_id : Z) (key : string) (s : Store) :
  has_achievement user_id key s =
  (match first (of_achievement user_id key) (achievements s) with
   | Some _ => true
   | None => false
   end, s).
Proof. reflexivity. Qed.

Lemma has_achievement_iff (user_id : Z) (key : string) (s : Store) :
  fst (has_achievement user_id key s) = true <->
  exists a, a ∈ achievements s /\ achievement_pair a = (user_id, key).
Proof.
  rewrite has_achievement_unfold. simpl. unfold achievement_pair. split.
  - destruct (first _ _) as [a|] eqn:Hfind; [|done]. intros _.
    apply first_Some in Hfind as [Hp Hin]. exists a. split; [done|].
    unfold of_achievement in Hp. apply andb_true_iff in Hp as [H1 H2].
    apply bool_decide_eq_true in H1, H2. by rewrite H1, H2.
  - intros (a & Hin & Hpair).
    destruct (first _ _) as [b|] eqn:Hfind; [done|]. exfalso.
    unfold first in Hfind. apply list_elem_of_In in Hin.
    apply (find_none _ _ Hfind) in Hin. unfold of_achievement in Hin.
    injection Hpair as H1 H2.
    rewrite !bool_decide_eq_true_2 in Hin by done. done.
Qed.

Lemma unlock_each_effect (user_id : Z) (checks : list (string * bool)) :
  forall s : Store,
  let r := unlock_each utc user_id checks s in
  users (snd r) = users s /\
  memories (snd r) = memories s /\
  sessions (snd r) = sessions s /\
  achievements (snd r) = achievements s ++ fst r /\
  Forall (fun a => Achievement.user_id a = user_id /\
                   Achievement.celebrated a = false /\
                   (Achievement.achievement_key a, true) ∈ checks) (fst r).
Proof.
  induction checks as [|[key condition] checks IH]; intros s; simpl.
  - unfold ret. simpl. rewrite app_nil_r. repeat split; auto.
  - destruct condition.
    + unfold bind.
      pose proof (unlock_achievement_effect user_id key s) as Hu.
      destruct (unlock_achievement utc user_id key s) as [a s1] eqn:E1.
      simpl in Hu. destruct Hu as (Hus & Hms & Hss & Hach).
      specialize (IH s1).
      destruct (unlock_each utc user_id checks s1) as [rest s2] eqn:E2.
      simpl in IH. destruct IH as (Hu2 & Hm2 & Hs2 & Ha2 & Hall).
      assert (Hall' : Forall (fun a => Achievement.user_id a = user_id /\
                  Achievement.celebrated a = false /\
                  (Achievement.achievement_key a, true)
                    ∈ (key, true) :: checks) rest).
      { eapply Forall_impl; [exact Hall|]. simpl.
        intros x (?&?&?). repeat split; auto. by apply list_elem_of_further. }
      unfold ret. simpl.
      destruct (first (of_achievement user_id key) (achievements s)).
      * injection Hach as -> ->. repeat split; auto; congruence.
      * destruct Hach as (a' & -> & Hach & Hau & Hak & Hac). simpl.
        repeat split; try congruence.
        -- rewrite Ha2, Hach, <- app_assoc. done.
        -- constructor; [|done]. repeat split; auto.
           rewrite Hak. apply list_elem_of_here.
    + specialize (IH s).
      destruct (unlock_each utc user_id checks s) as [rest s2] eqn:E2.
      simpl in *. destruct IH as (Hu2 & Hm2 & Hs2 & Ha2 & Hall).
      repeat split; auto.
      eapply Forall_impl; [exact Hall|]. simpl.
      intros x (?&?&?). repeat split; auto. by apply list_elem_of_further.
Qed.

Lemma has_achievement_mono (user_id : Z) (key : string) (s s' : Store)
    (extra : list Achievement.t) :
  achievements s' = achievements s ++ extra ->
  fst (has_achievement user_id key s) = true ->
  fst (has_achievement user_id key s') = true.
Proof.
  rewrite !has_achievement_iff. intros -> (a & Hin & Hpair).
  exists a. split; [|done]. apply elem_of_app. by left.
Qed.

Lemma unlock_each_complete (user_id : Z) (checks : list (string * bool)) :
  forall (s : Store) (key : string),
  (key, true) ∈ checks ->
  fst (has_achievement user_id key (snd (unlock_each utc user_id checks s)))
    = true.
Proof.
  induction checks as [|[k condition] checks IH]; intros s key Hin.
  - by apply elem_of_nil in Hin.
  - apply elem_of_cons in Hin as [Heq|Hin].
    + injection Heq as <- <-. simpl. unfold bind.
      pose proof (unlock_achievement_effect user_id key s) as Hu.
      destruct (unlock_achievement utc user_id key s) as [a s1] eqn:E1.
      pose proof (unlock_each_effect user_id checks s1) as He.
      destruct (unlock_each utc user_id checks s1) as [rest s2] eqn:E2.
      simpl in *. destruct He as (_ & _ & _ & Ha2 & _).
      apply (has_achievement_mono _ _ s1 _ rest); [done|].
      destruct Hu as (_ & _ & _ & Hach).
      destruct (first (of_achievement user_id key) (achievements s))
        eqn:Hfind.
      * injection Hach as -> ->. rewrite has_achievement_unfold. simpl.
        by rewrite Hfind.
      * destruct Hach as (a' & _ & Hach & Hau & Hak & _).
        apply has_achievement_iff. exists a'. split.
        -- rewrite Hach. apply elem_of_app. right. apply list_elem_of_here.
        -- unfold achievement_pair. by rewrite Hau, Hak.
    + simpl. destruct condition; [|by apply IH].
      unfold bind.
      destruct (unlock_achievement utc user_id k s) as [a s1] eqn:E1.
      specialize (IH s1 key Hin).
      destruct (unlock_each utc user_id checks s1) as [rest s2] eqn:E2.
      done.
Qed.

Lemma unlock_each_noop (user_id : Z) (checks : list (string * bool))
    (s : Store) :
  (forall key, (key, true) ∈ checks ->
               fst (has_achievement user_id key s) = true) ->
  unlock_each utc user_id checks s = ([], s).
Proof.
  induction checks as [|[k condition] checks IH]; intros Hall; [done|].
  simpl. destruct condition.
  - unfold bind.
    pose proof (unlock_achievement_effect user_id k s) as Hu.
    specialize (Hall k) as Hk. rewrite has_achievement_unfold in Hk.
    simpl in Hk.
    destruct (first (of_achievement user_id k) (achievements s));
      [|by discriminate Hk; apply list_elem_of_here].
    simpl in Hu. destruct Hu as (_ & _ & _ & ->).
    rewrite IH; [done|]. intros key Hin. apply Hall.
    by apply list_elem_of_further.
  - apply IH. intros key Hin. apply Hall. by apply list_elem_of_further.
Qed.

Lemma has_achievement_other (user_id : Z) (key : string) (s s' : Store)
    (a : Achievement.t) :
  achievements s' = achievements s ++ [a] ->
  Achievement.achievement_key a <> key ->
  fst (has_achievement user_id key s') = fst (has_achievement user_id key s).
Proof.
  intros Hach Hne.
  destruct (fst (has_achievement user_id key s)) eqn:Hs.
  - by apply (has_achievement_mono _ _ s _ [a]).
  - destruct (fst (has_achievement user_id key s')) eqn:Hs'; [|done].
    apply has_achievement_iff in Hs' as (b & Hin & Hpair).
    rewrite Hach in Hin. apply elem_of_app in Hin as [Hin|Hin].
    + assert (fst (has_achievement user_id key s) = true) as Habs
        by (apply has_achievement_iff; eauto).
      congruence.
    + apply list_elem_of_singleton in Hin as ->.
      unfold achievement_pair in Hpair. congruence.
Qed.

Lemma unlock_each_keys (user_id : Z) (checks : list (string * bool)) :
  NoDup (fst <$> checks) ->
  forall s : Store,
  Achievement.achievement_key <$> fst (unlock_each utc user_id checks s) =
  fst <$> List.filter
            (fun kc => snd kc &&
                       negb (fst (has_achievement user_id (fst kc) s)))
            checks.
Proof.
  induction checks as [|[key condition] checks IH]; intros Hnd s; [done|].
  rewrite fmap_cons in Hnd. apply NoDup_cons in Hnd as [Hfresh Hnd].
  cbn [fst] in Hfresh.
  cbn [unlock_each List.filter snd fst andb].
  destruct condition; cbn [andb]; [|by apply IH].
  rewrite has_achievement_unfold. cbn [fst]. unfold bind.
  pose proof (unlock_achievement_effect user_id key s) as Hu.
  destruct (unlock_achievement utc user_id key s) as [a s1] eqn:E1.
  specialize (IH Hnd s1).
  destruct (unlock_each utc user_id checks s1) as [rest s2] eqn:E2.
  cbn [fst snd] in *. destruct Hu as (_ & _ & _ & Hach).
  unfold ret. cbn [fst].
  destruct (first (of_achievement user_id key) (achievements s)) eqn:Hfind.
  - injection Hach as -> ->. cbn [negb]. exact IH.
  - destruct Hach as (a' & -> & Hach & _ & Hak & _). cbn [negb].
    rewrite !fmap_cons. cbn [fst]. rewrite Hak, IH. do 2 f_equal.
    apply filter_ext_in. intros [k c] Hin. cbn [fst snd]. do 2 f_equal.
    apply (has_achievement_other _ _ _ _ a'); [done|].
    rewrite Hak. intros ->. apply Hfresh.
    apply list_elem_of_In in Hin.
    by apply (list_elem_of_fmap_2 fst) in Hin.
Qed.

Lemma evaluate_checks_keys (user_id : Z) (user : User.t) (s : Store) :
  NoDup (fst <$> evaluate_checks json_loads str_strip user_id user s).
Proof.
  unfold evaluate_checks, achievement_checks. simpl.
  apply (bool_decide_unpack _). vm_compute. exact I.
Qed.

Lemma evaluate_checks_memories (user_id : Z) (user : User.t)
    (s s' : Store) :
  memories s' = memories s ->
  evaluate_checks json_loads str_strip user_id user s' =
  evaluate_checks json_loads str_strip user_id user s.
Proof.
  intros H. unfold evaluate_checks, get_recent_memories. run_monad.
  by rewrite H.
Qed.

Lemma unlock_achievement_NoDup (user_id : Z) (key : string) (s : Store) :
  NoDup (achievement_pair <$> achievements s) ->
  NoDup (achievement_pair <$>
           achievements (snd (unlock_achievement utc user_id key s))).
Proof.
  intros Hnd.
  pose proof (unlock_achievement_effect user_id key s) as (_ & _ & _ & Hach).
  pose proof (has_achievement_iff user_id key s) as Hiff.
  rewrite has_achievement_unfold in Hiff. simpl in Hiff.
  destruct (first (of_achievement user_id key) (achievements s)).
  - by rewrite Hach.
  - destruct Hach as (a & _ & -> & Hau & Hak & _).
    rewrite fmap_app. apply NoDup_app. split; [done|]. split.
    + intros p Hp Hin. simpl in Hin.
      apply list_elem_of_singleton in Hin as ->.
      apply list_elem_of_fmap in Hp as (b & Hpair & Hb).
      assert (false = true) as Habs; [|done].
      apply Hiff. exists b. split; [done|].
      rewrite <- Hpair. unfold achievement_pair. by rewrite Hau, Hak.
    + simpl. apply NoDup_singleton.
Qed.

Lemma unlock_each_NoDup (user_id : Z) (checks : list (string * bool)) :
  forall s : Store,
  NoDup (achievement_pair <$> achievements s) ->
  NoDup (achievement_pair <$>
           achievements (snd (unlock_each utc user_id checks s))).
Proof.
  induction checks as [|[key condition] checks IH]; intros s Hnd; [done|].
  simpl. destruct condition; [|by apply IH].
  unfold bind.
  pose proof (unlock_achievement_NoDup user_id key s Hnd) as H1.
  destruct (unlock_achievement utc user_id key s) as [a s1] eqn:E1.
  specialize (IH s1 H1).
  destruct (unlock_each utc user_id checks s1) as [rest s2] eqn:E2.
  done.
Qed.

Lemma check_and_unlock_achievements_effect (user_id : Z) (s : Store) :
  let r := check_and_unlock_achievements utc json_loads str_strip user_id s in
  users (snd r) = users s /\
  memories (snd r) = memories s /\
  sessions (snd r) = sessions s /\
  achievements (snd r) = achievements s ++ fst r /\
  Forall (fun a => Achievement.user_id a = user_id /\
                   Achievement.celebrated a = false) (fst r) /\
  (NoDup (achievement_pair <$> achievements s) ->
   NoDup (achievement_pair <$> achievements (snd r))).
Proof.
  unfold check_and_unlock_achievements, bind, get. cbv beta iota zeta.
  destruct (first (by_user_pk user_id) (users s)) as [user|].
  - pose proof (unlock_each_effect user_id
                  (evaluate_checks json_loads str_strip user_id user s) s)
      as (Hu & Hm & Hs & Ha & Hall).
    split; [done|]. split; [done|]. split; [done|]. split; [done|]. split.
    + eapply Forall_impl; [exact Hall|]. simpl. tauto.
    + intros Hnd. by apply unlock_each_NoDup.
  - unfold ret. simpl. rewrite app_nil_r. repeat split; auto.
Qed.

(** *** The service operations *)

Lemma get_or_create_user_invariant (user_id : string) (s : Store) :
  Forall user_invariant (users s) ->
  Forall user_invariant (users (snd (get_or_create_user utc user_id s))).
Proof.
  intros H.
  destruct (get_or_create_user_effect user_id s)
    as (_ & _ & _ & [-> | (-> & Hc & Hl & Hd)] & _); [done|].
  apply Forall_app. split; [done|]. constructor; [|constructor].
  unfold user_invariant. lia.
Qed.

Lemma store_each_effect (user_pk : Z) (observations : list Observation) :
  forall s : Store,
  let r := store_each utc json_dumps user_pk observations s in
  users (snd r) = users s /\
  sessions (snd r) = sessions s /\
  achievements (snd r) = achievements s /\
  memories (snd r) = memories s ++ fst r /\
  (Forall (fun obs => on_scale (default 5 (obs_relevance_score obs)))
          observations ->
   Forall (fun m => on_scale (Memory.relevance_score m)) (fst r)).
Proof.
  induction observations as [|obs observations IH]; intros s.
  - cbn. rewrite app_nil_r. repeat split; auto.
  - cbn [store_each].
    assert (Hskip :
      let r := store_each utc json_dumps user_pk observations s in
      users (snd r) = users s /\ sessions (snd r) = sessions s /\
      achievements (snd r) = achievements s /\
      memories (snd r) = memories s ++ fst r /\
      (Forall (fun obs => on_scale (default 5 (obs_relevance_score obs)))
              (obs :: observations) ->
       Forall (fun m => on_scale (Memory.relevance_score m)) (fst r))).
    { destruct (IH s) as (?&?&?&?&Hsc). repeat split; auto.
      intros Hall. apply Forall_cons in Hall as [_ Hall]. auto. }
    destruct (obs_observation obs) as [text|]; [|exact Hskip].
    destruct (nonempty text); [|exact Hskip]. clear Hskip.
    unfold bind.
    match goal with
    | |- context [create_memory utc ?u ?o ?i ?c ?r ?f ?p ?d ?b s] =>
        pose proof (create_memory_effect u o i c r f p d b s) as Hc;
        destruct (create_memory utc u o i c r f p d b s) as [m s1]
    end.
    cbn [fst snd] in Hc. destruct Hc as (Hu & Hm & Hs & Ha & Hscore & _).
    specialize (IH s1).
    destruct (store_each utc json_dumps user_pk observations s1)
      as [rest s2].
    cbn [fst snd] in *. destruct IH as (Hu2 & Hs2 & Ha2 & Hm2 & Hsc).
    unfold ret. cbn [fst snd].
    repeat split; try congruence.
    + rewrite Hm2, Hm, <- app_assoc. done.
    + intros Hall. apply Forall_cons in Hall as [Hobs Hall].
      constructor; [by rewrite Hscore | auto].
Qed.

Lemma store_observation_effect user_id observation interpretation category
    relevance_score (s : Store) :
  let r := store_observation utc user_id observation interpretation category
             relevance_score s in
  memories (snd r) = memories s ++ [fst r] /\
  Memory.relevance_score (fst r) = relevance_score /\
  achievements (snd r) = achievements s /\
  (Forall user_invariant (users s) ->
   Forall user_invariant (users (snd r))).
Proof.
  unfold store_observation, bind.
  pose proof (get_or_create_user_effect user_id s) as Hg.
  pose proof (get_or_create_user_invariant user_id s) as Hi.
  destruct (get_or_create_user utc user_id s) as [user s1].
  cbn [fst snd] in *. destruct Hg as (Hm & _ & Ha & _).
  match goal with
  | |- context [create_memory utc ?u ?o ?i ?c ?r ?f ?p ?d ?b s1] =>
      pose proof (create_memory_effect u o i c r f p d b s1) as Hc;
      destruct (create_memory utc u o i c r f p d b s1) as [m s2]
  end.
  cbn [fst snd] in *. destruct Hc as (Hu2 & Hm2 & _ & Ha2 & Hscore & _).
  split; [by rewrite Hm2, Hm|]. split; [done|].
  split; [by rewrite Ha2|]. by rewrite Hu2.
Qed.

Lemma batch_store_observations_effect user_id observations (s : Store) :
  let r := batch_store_observations utc json_dumps user_id observations s in
  memories (snd r) = memories s ++ fst r /\
  (Forall (fun obs => on_scale (default 5 (obs_relevance_score obs)))
          observations ->
   Forall (fun m => on_scale (Memory.relevance_score m)) (fst r)) /\
  achievements (snd r) = achievements s /\
  (Forall user_invariant (users s) ->
   Forall user_invariant (users (snd r))).
Proof.
  unfold batch_store_observations, bind.
  pose proof (get_or_create_user_effect user_id s) as Hg.
  pose proof (get_or_create_user_invariant user_id s) as Hi.
  destruct (get_or_create_user utc user_id s) as [user s1].
  cbn [fst snd] in *. destruct Hg as (Hm & _ & Ha & _).
  pose proof (store_each_effect (User.id user) observations s1) as He.
  destruct (store_each utc json_dumps (User.id user) observations s1)
    as [ms s2].
  cbn [fst snd] in *. destruct He as (Hu2 & _ & Ha2 & Hm2 & Hsc).
  split; [by rewrite Hm2, Hm|]. split; [done|].
  split; [by rewrite Ha2|]. by rewrite Hu2.
Qed.

Lemma build_context_for_interaction_store user_id include_recent
    include_relevant (s : Store) :
  snd (build_context_for_interaction utc user_id include_recent
         include_relevant s) =
  snd (get_or_create_user utc user_id s).
Proof.
  unfold build_context_for_interaction, bind.
  by destruct (get_or_create_user utc user_id s) as [user s1].
Qed.

Lemma get_pattern_history_store user_id category (s : Store) :
  snd (get_pattern_history utc user_id category s) =
  snd (get_or_create_user utc user_id s).
Proof.
  unfold get_pattern_history, bind.
  by destruct (get_or_create_user utc user_id s) as [user s1].
Qed.

Lemma get_recent_interaction_context_store user_id limit (s : Store) :
  snd (get_recent_interaction_context utc user_id limit s) =
  snd (get_or_create_user utc user_id s).
Proof.
  unfold get_recent_interaction_context, bind.
  by destruct (get_or_create_user utc user_id s) as [user s1].
Qed.

Lemma log_interaction_effect user_id user_input agent_response (s : Store) :
  let r := log_interaction utc user_id user_input agent_response s in
  memories (snd r) = memories s /\
  achievements (snd r) = achievements s /\
  (Forall user_invariant (users s) ->
   Forall user_invariant (users (snd r))).
Proof.
  unfold log_interaction, bind.
  pose proof (get_or_create_user_effect user_id s) as Hg.
  pose proof (get_or_create_user_invariant user_id s) as Hi.
  destruct (get_or_create_user utc user_id s) as [user s1].
  cbn [fst snd] in *. destruct Hg as (Hm & _ & Ha & _).
  pose proof (create_session_record_effect (User.id user) user_input
                agent_response s1) as Hc.
  destruct (create_session_record utc (User.id user) user_input
              agent_response s1) as [row s2].
  cbn [fst snd] in *. destruct Hc as (Hu2 & Hm2 & Ha2).
  unfold ret. cbn [snd].
  split; [by rewrite Hm2|]. split; [by rewrite Ha2|]. by rewrite Hu2.
Qed.

(** *** One call, table by table *)

Lemma run_users_invariant (c : Call) (s : Store) :
  Forall user_invariant (users s) ->
  Forall user_invariant (users (run utc json_loads str_strip json_dumps c s)).
Proof.
  intros H. destruct c; cbn [run].
  - by apply get_or_create_user_invariant.
  - by rewrite (proj1 (create_memory_effect _ _ _ _ _ _ _ _ _ s)).
  - by rewrite (proj1 (update_memory_relevance_effect _ _ s)).
  - by rewrite (proj1 (create_session_record_effect _ _ _ s)).
  - by apply update_user_stats_effect.
  - by rewrite (proj1 (unlock_achievement_effect _ _ s)).
  - by rewrite (proj1 (mark_achievement_celebrated_effect _ s)).
  - by rewrite (proj1 (check_and_unlock_achievements_effect _ s)).
  - by apply store_observation_effect.
  - by apply batch_store_observations_effect.
  - rewrite build_context_for_interaction_store.
    by apply get_or_create_user_invariant.
  - rewrite get_pattern_history_store.
    by apply get_or_create_user_invariant.
  - unfold mark_memory_as_significant.
    by rewrite (proj1 (update_memory_relevance_effect _ _ s)).
  - unfold decay_memory_relevance.
    by rewrite (proj1 (update_memory_relevance_effect _ _ s)).
  - by apply log_interaction_effect.
  - rewrite get_recent_interaction_context_store.
    by apply get_or_create_user_invariant.
Qed.

Lemma run_memories (c : Call) (s : Store) :
  if writes_relevance c then
    exists memory_id score,
      memories (run utc json_loads str_strip json_dumps c s) =
        update_first (by_memory_pk memory_id)
          (Memory.set_relevance_score score) (memories s) /\
      (scores_on_scale c -> on_scale score)
  else
    exists extra,
      memories (run
          utc json_loads str_strip json_dumps c s) = memories s ++ extra /\
      (scores_on_scale c ->
       Forall (fun m => on_scale (Memory.relevance_score m)) extra).
Proof.
  assert (Hsame : forall s' : Store, memories s' = memories s ->
            exists extra, memories s' = memories s ++ extra /\
              (scores_on_scale c ->
               Forall (fun m => on_scale (Memory.relevance_score m)) extra)).
  { intros s' ->. exists []. by rewrite app_nil_r. }
  destruct c; cbn [run writes_relevance].
  - apply Hsame, get_or_create_user_effect.
  - match goal with
    | |- context [create_memory utc ?u ?o ?i ?c ?r ?f ?p ?d ?b s] =>
        destruct (create_memory_effect u o i c r f p d b s)
          as (_ & Hm & _ & _ & Hscore & _)
    end.
    eexists. split; [exact Hm|]. cbn [scores_on_scale]. intros Hon.
    constructor; [by rewrite Hscore | constructor].
  - destruct (update_memory_relevance_effect memory_id new_score s)
      as (_ & Hm & _).
    exists memory_id, new_score. by split.
  - apply Hsame, create_session_record_effect.
  - apply Hsame, update_user_stats_effect.
  - apply Hsame, unlock_achievement_effect.
  - apply Hsame, mark_achievement_celebrated_effect.
  - apply Hsame, check_and_unlock_achievements_effect.
  - match goal with
    | |- context [store_observation utc ?u ?o ?i ?c ?r s] =>
        destruct (store_observation_effect u o i c r s)
          as (Hm & Hscore & _)
    end.
    eexists. split; [exact Hm|]. cbn [scores_on_scale]. intros Hon.
    constructor; [by rewrite Hscore | constructor].
  - destruct (batch_store_observations_effect user_id observations s)
      as (Hm & Hsc & _).
    eexists. split; [exact Hm|]. exact Hsc.
  - apply Hsame. rewrite build_context_for_interaction_store.
    apply get_or_create_user_effect.
  - apply Hsame. rewrite get_pattern_history_store.
    apply get_or_create_user_effect.
  - destruct (update_memory_relevance_effect memory_id 9 s) as (_ & Hm & _).
    exists memory_id, 9. split; [exact Hm|]. unfold on_scale. lia.
  - destruct (update_memory_relevance_effect memory_id 3 s) as (_ & Hm & _).
    exists memory_id, 3. split; [exact Hm|]. unfold on_scale. lia.
  - apply Hsame, log_interaction_effect.
  - apply Hsame. rewrite get_recent_interaction_context_store.
    apply get_or_create_user_effect.
Qed.

Lemma run_achievements (c : Call) (s : Store) :
  if is_celebrate c then
    exists achievement_id,
      achievements (run utc json_loads str_strip json_dumps c s) =
        update_first (by_achievement_pk achievement_id)
          (Achievement.set_celebrated true) (achievements s)
  else
    exists extra,
      achievements (run utc json_loads str_strip json_dumps c s) =
        achievements s ++ extra /\
      Forall (fun a => Achievement.celebrated a = false) extra /\
      (NoDup (achievement_pair <$> achievements s) ->
       NoDup (achievement_pair <$>
                achievements (run utc json_loads str_strip json_dumps c s))).
Proof.
  assert (Hsame : forall s' : Store, achievements s' = achievements s ->
            exists extra, achievements s' = achievements s ++ extra /\
              Forall (fun a => Achievement.celebrated a = false) extra /\
              (NoDup (achievement_pair <$> achievements s) ->
               NoDup (achievement_pair <$> achievements s'))).
  { intros s' ->. exists []. rewrite app_nil_r. repeat split; auto. }
  destruct c; cbn [run is_celebrate].
  - apply Hsame, get_or_create_user_effect.
  - apply Hsame, create_memory_effect.
  - apply Hsame, update_memory_relevance_effect.
  - apply Hsame, create_session_record_effect.
  - apply Hsame, update_user_stats_effect.
  - pose proof (unlock_achievement_effect user_id achievement_key s)
      as (_ & _ & _ & Hach).
    pose proof (unlock_achievement_NoDup user_id achievement_key s) as Hnd.
    destruct (first (of_achievement user_id achievement_key)
                (achievements s)).
    + rewrite Hach. by apply Hsame.
    + destruct Hach as (a & _ & Hach & _ & _ & Hc).
      exists [a]. split; [done|]. split; [|done].
      constructor; [done | constructor].
  - destruct (mark_achievement_celebrated_effect achievement_id s)
      as (_ & _ & _ & Hach).
    by exists achievement_id.
  - destruct (check_and_unlock_achievements_effect user_id s)
      as (_ & _ & _ & Hach & Hall & Hnd).
    eexists. split; [exact Hach|]. split; [|done].
    eapply Forall_impl; [exact Hall|]. simpl. tauto.
  - apply Hsame, store_observation_effect.
  - apply Hsame, batch_store_observations_effect.
  - apply Hsame. rewrite build_context_for_interaction_store.
    apply get_or_create_user_effect.
  - apply Hsame. rewrite get_pattern_history_store.
    apply get_or_create_user_effect.
  - apply Hsame, update_memory_relevance_effect.
  - apply Hsame, update_memory_relevance_effect.
  - apply Hsame, log_interaction_effect.
  - apply Hsame. rewrite get_recent_interaction_context_store.
    apply get_or_create_user_effect.
Qed.

(** ** Invariants of the reachable states *)

(** C3: in every state reached from the empty store by any sequence of
    the public operations, every user has
    [longest_streak >= current_streak] and a connection depth in 1..5. *)
Theorem reachable_user_invariant (s : Store) :
  reachable utc json_loads str_strip json_dumps s ->
  Forall user_invariant (users s).
Proof.
  induction 1 as [|c s Hreach IH].
  - constructor.
  - by apply run_users_invariant.
Qed.

(** C4, as amended: in every reachable state no two achievement rows
    share a (user, key) pair; one pass of [check_and_unlock_achievements]
    unlocks exactly the keys of the table that are not yet unlocked and
    whose condition holds, the conditions being those of
    [achievement_checks] over the session count, the streak, the depth,
    the breakthrough count, the identity-statement count, the number of
    distinct people mentioned and the number of the user's memories; and
    the same pass run again on the resulting store unlocks nothing and
    leaves the store as it is. *)
Theorem check_and_unlock_achievements_once :
  (forall s : Store,
     reachable utc json_loads str_strip json_dumps s ->
     NoDup (achievement_pair <$> achievements s)) /\
  (forall (user_id : Z) (s : Store),
     let r := check_and_unlock_achievements
         utc json_loads str_strip user_id s in
     match first (by_user_pk user_id) (users s) with
     | Some user =>
         Achievement.achievement_key <$> fst r =
         fst <$> List.filter
                   (fun kc => snd kc &&
                      negb (fst (has_achievement user_id (fst kc) s)))
                   (evaluate_checks json_loads str_strip user_id user s)
     | None => fst r = []
     end /\
     achievements (snd r) = achievements s ++ fst r /\
     Forall (fun a => Achievement.user_id a = user_id /\
                      Achievement.celebrated a = false) (fst r) /\
     check_and_unlock_achievements utc json_loads str_strip user_id (snd r) =
       ([], snd r)).
Proof.
  split.
  - induction 1 as [|c s Hreach IH]; [constructor|].
    pose proof (run_achievements c s) as Hrun.
    destruct (is_celebrate c).
    + destruct Hrun as (achievement_id & ->).
      assert (Hpairs : forall rows,
        achievement_pair <$>
          update_first (by_achievement_pk achievement_id)
            (Achievement.set_celebrated true) rows =
        achievement_pair <$> rows).
      { induction rows as [|a rows IHrows]; [done|]. cbn [update_first].
        destruct (by_achievement_pk achievement_id a);
          rewrite !fmap_cons; [done | by rewrite IHrows]. }
      by rewrite Hpairs.
    + destruct Hrun as (extra & _ & _ & Hnd). by apply Hnd.
  - intros user_id s r.
    pose proof (check_and_unlock_achievements_effect user_id s)
      as (Hu & Hm & _ & Hach & Hall & _).
    fold r in Hu, Hm, Hach, Hall.
    split; [|split; [done|split; [done|]]].
    + subst r. unfold check_and_unlock_achievements, bind, get.
      cbv beta iota zeta.
      destruct (first (by_user_pk user_id) (users s)) as [user|]; [|done].
      apply unlock_each_keys, evaluate_checks_keys.
    + unfold check_and_unlock_achievements at 1. unfold bind, get.
      cbv beta iota zeta. rewrite Hu.
      destruct (first (by_user_pk user_id) (users s)) as [user|] eqn:Hfind;
        [|done].
      apply unlock_each_noop. intros key Hin.
      rewrite (evaluate_checks_memories user_id user s (snd r) Hm) in Hin.
      subst r. unfold check_and_unlock_achievements, bind, get.
      cbv beta iota zeta. rewrite Hfind.
      by apply unlock_each_complete.
Qed.

(** C6, as amended: as long as every relevance score handed to
    [create_memory], [store_observation], [batch_store_observations] and
    [update_memory_relevance] is itself in 1..10, every stored memory has
    a relevance score in 1..10 (the promote and decay operations of the
    service write 9 and 3). *)
Theorem relevance_stays_on_scale (s : Store) :
  reachable_on_scale utc json_loads str_strip json_dumps s ->
  relevance_on_scale s.
Proof.
  unfold relevance_on_scale.
  induction 1 as [|c s Hreach IH Hc]; [constructor|].
  pose proof (run_memories c s) as Hrun.
  destruct (writes_relevance c).
  - destruct Hrun as (memory_id & score & -> & Hscore).
    apply update_first_Forall; [|done]. intros m _. by apply Hscore.
  - destruct Hrun as (extra & -> & Hextra).
    apply Forall_app. split; [done | by apply Hextra].
Qed.

(** ** Frames *)

Lemma same_but_relevance_refl (m : Memory.t) : same_but_relevance m m.
Proof. unfold same_but_relevance. tauto. Qed.

Lemma take_update_first {A} (p : A -> bool) (f : A -> A) rows :
  take (length rows) (update_first p f rows) = update_first p f rows.
Proof. apply take_ge. by rewrite update_first_length. Qed.

(** C7: [update_memory_relevance] writes the relevance score of one
    memory and nothing else: every memory keeps its id, user, observation,
    interpretation, category, creation time, follow-up question, people,
    identity and breakthrough flags, every memory with another id is
    untouched, and the other tables are untouched; and no public
    operation other than the ones that go through it changes any field
    of an existing memory (the memories already stored stay, in order, as
    they were). *)
Theorem only_relevance_is_written (c : Call) (s : Store) :
  let before := memories s in
  let after := memories (run utc json_loads str_strip json_dumps c s) in
  Forall2 same_but_relevance before (take (length before) after) /\
  (writes_relevance c = false -> take (length before) after = before) /\
  (forall memory_id new_score,
     c = UpdateMemoryRelevance memory_id new_score ->
     length after = length before /\
     Forall2 (fun m m' => same_but_relevance m m' /\
                          (Memory.id m <> memory_id -> m' = m))
             before after /\
     users (run utc json_loads str_strip json_dumps c s) = users s /\
     sessions (run utc json_loads str_strip json_dumps c s) = sessions s /\
     achievements (run
         utc json_loads str_strip json_dumps c s) = achievements s).
Proof.
  intros before after. subst before after.
  pose proof (run_memories c s) as Hrun.
  split; [|split].
  - destruct (writes_relevance c).
    + destruct Hrun as (memory_id & score & -> & _).
      rewrite take_update_first.
      apply update_first_Forall2.
      * apply same_but_relevance_refl.
      * intros m _. unfold same_but_relevance. simpl. tauto.
    + destruct Hrun as (extra & -> & _). rewrite take_app_length.
      apply Forall_Forall2_diag, Forall_forall. intros m _.
      apply same_but_relevance_refl.
  - intros Hw. rewrite Hw in Hrun. destruct Hrun as (extra & -> & _).
    apply take_app_length.
  - intros memory_id new_score ->. cbn [run].
    destruct (update_memory_relevance_effect memory_id new_score s)
      as (Hu & -> & Hs & Ha & _).
    split; [apply update_first_length|]. split; [|done].
    apply update_first_Forall2.
    + intros m. split; [apply same_but_relevance_refl | done].
    + intros m Hp. split.
      * unfold same_but_relevance. simpl. tauto.
      * intros Hne. unfold by_memory_pk in Hp.
        by apply bool_decide_eq_true in Hp.
Qed.

(** C8: every achievement row is created with [celebrated = false]; no
    operation sets the flag of an existing row back to false or changes
    any other field of it; and an operation other than
    [mark_achievement_celebrated] leaves the existing rows exactly as they
    were. *)
Theorem celebrated_only_by_mark (c : Call) (s : Store) :
  let before := achievements s in
  let after := achievements (run utc json_loads str_strip json_dumps c s) in
  Forall2 (fun a a' =>
             same_but_celebrated a a' /\
             (Achievement.celebrated a = true ->
              Achievement.celebrated a' = true))
          before (take (length before) after) /\
  Forall (fun a => Achievement.celebrated a = false)
         (drop (length before) after) /\
  (is_celebrate c = false -> take (length before) after = before) /\
  (forall user_id key a,
     fst (unlock_achievement utc user_id key s) = Some a ->
     Achievement.celebrated a = false).
Proof.
  intros before after. subst before after.
  pose proof (run_achievements c s) as Hrun.
  assert (Hrefl : forall a : Achievement.t,
            same_but_celebrated a a /\
            (Achievement.celebrated a = true ->
             Achievement.celebrated a = true)).
  { intros a. unfold same_but_celebrated. tauto. }
  split; [|split; [|split]].
  - destruct (is_celebrate c).
    + destruct Hrun as (achievement_id & ->). rewrite take_update_first.
      apply update_first_Forall2; [done|].
      intros a _. unfold same_but_celebrated. simpl. tauto.
    + destruct Hrun as (extra & -> & _). rewrite take_app_length.
      apply Forall_Forall2_diag, Forall_forall. auto.
  - destruct (is_celebrate c).
    + destruct Hrun as (achievement_id & ->).
      rewrite drop_ge; [constructor|]. by rewrite update_first_length.
    + destruct Hrun as (extra & -> & Hextra & _).
      by rewrite drop_app_length.
  - intros Hc. rewrite Hc in Hrun. destruct Hrun as (extra & -> & _).
    apply take_app_length.
  - intros user_id key a Ha.
    pose proof (unlock_achievement_effect user_id key s)
      as (_ & _ & _ & Hach).
    destruct (first (of_achievement user_id key) (achievements s)).
    + rewrite Hach in Ha. done.
    + destruct Hach as (a' & Ha' & _ & _ & _ & Hc). congruence.
Qed.

(** ** Retrieval *)

Lemma filter_filter_Forall {A} (p q : A -> bool) (rows : list A) :
  Forall (fun r => r ∈ rows /\ p r = true /\ q r = true)
         (List.filter q (List.filter p rows)).
Proof.
  apply Forall_forall. intros r Hr.
  apply list_elem_of_In, filter_In in Hr as [Hin Hq].
  apply filter_In in Hin as [Hin Hp].
  split; [by apply list_elem_of_In | done].
Qed.

(** C5: [get_relevant_memories] returns only stored memories of the given
    user whose relevance score is at least the threshold, sorted by
    relevance score descending and, among equal scores, by creation time
    descending, and at most [limit] of them. *)
Theorem get_relevant_memories_sorted (user_id min_relevance limit : Z)
    (s : Store) :
  0 <= limit ->
  let result := fst (get_relevant_memories user_id min_relevance limit s) in
  Forall (fun m => m ∈ memories s /\ Memory.user_id m = user_id /\
                   min_relevance <= Memory.relevance_score m) result /\
  StronglySorted relevance_recency_desc result /\
  Z.of_nat (length result) <= limit.
Proof.
  intros Hlimit. unfold get_relevant_memories, bind, get, ret.
  cbn [fst snd]. split; [|split].
  - apply sql_limit_Forall, order_by_Forall.
    eapply Forall_impl; [apply filter_filter_Forall|].
    intros m (Hin & Hu & Hr). cbn beta in *.
    unfold of_user, at_least in *.
    apply bool_decide_eq_true in Hu, Hr. done.
  - apply sql_limit_StronglySorted. unfold order_by.
    apply StronglySorted_merge_sort; apply _.
  - by apply sql_limit_length.
Qed.

(** C9: [build_context_for_interaction] returns a dictionary whose
    ['recent'] list holds at most [include_recent] memories of the user,
    most recent first, and whose ['relevant'] list holds at most
    [include_relevant] memories of the user, each with a relevance score
    of at least 7. *)
Theorem build_context_for_interaction_bounded (user_id : string)
    (include_recent include_relevant : Z) (s : Store) :
  0 <= include_recent -> 0 <= include_relevant ->
  let r := build_context_for_interaction utc user_id include_recent
             include_relevant s in
  exists user recent relevant,
    first (by_user_key user_id) (users (snd r)) = Some user /\
    fst r !! "recent" = Some recent /\
    fst r !! "relevant" = Some relevant /\
    Z.of_nat (length recent) <= include_recent /\
    Forall (fun m => m ∈ memories (snd r) /\
                     Memory.user_id m = User.id user) recent /\
    StronglySorted recency_desc recent /\
    Z.of_nat (length relevant) <= include_relevant /\
    Forall (fun m => m ∈ memories (snd r) /\
                     Memory.user_id m = User.id user /\
                     7 <= Memory.relevance_score m) relevant.
Proof.
  intros Hrecent Hrelevant. unfold build_context_for_interaction, bind.
  pose proof (get_or_create_user_effect user_id s) as Hg.
  destruct (get_or_create_user utc user_id s) as [user s1].
  cbn [fst snd] in Hg. destruct Hg as (_ & _ & _ & _ & Hfind).
  unfold get_recent_memories, get_relevant_memories, bind, get, ret.
  cbn [fst snd].
  eexists user, _, _. split; [exact Hfind|].
  split; [apply lookup_insert_eq|].
  split; [rewrite lookup_insert_ne by done; apply lookup_insert_eq|].
  split; [by apply sql_limit_length|].
  split; [|split; [|split; [by apply sql_limit_length|]]].
  - apply sql_limit_Forall, order_by_Forall.
    eapply Forall_impl; [apply filter_Forall|].
    intros m (Hu & Hin). cbn beta in *. unfold of_user in Hu.
    by apply bool_decide_eq_true in Hu.
  - apply sql_limit_StronglySorted. unfold order_by.
    apply StronglySorted_merge_sort; apply _.
  - apply sql_limit_Forall, order_by_Forall.
    eapply Forall_impl; [apply filter_filter_Forall|].
    intros m (Hin & Hu & Hr). cbn beta in *.
    unfold of_user, at_least in *.
    apply bool_decide_eq_true in Hu, Hr. done.
Qed.

End Properties.

(** ** The properties on the sample data *)

Lemma play_reachable (calls : list Call) :
  forall s : Store,
  reachable sample_utc sample_loads ascii_strip sample_dumps s ->
  reachable sample_utc sample_loads ascii_strip sample_dumps (play calls s).
Proof.
  induction calls as [|c calls IH]; intros s Hs; [done|].
  apply IH. by apply reachable_run.
Qed.

Lemma play_on_scale (calls : list Call) :
  Forall (scores_on_scale) calls ->
  forall s : Store,
  reachable_on_scale sample_utc sample_loads ascii_strip sample_dumps s ->
  reachable_on_scale
      sample_utc sample_loads ascii_strip sample_dumps (play calls s).
Proof.
  induction 1 as [|c calls Hc Hcalls IH]; intros s Hs; [done|].
  apply IH. by apply on_scale_run.
Qed.

Lemma update_user_stats_streak_rule_witness :
  first (by_user_pk 1) (users one_user) = Some ada /\
  exists user',
    fst (update_user_stats sample_utc 1 one_user) = Some user' /\
    first (by_user_pk 1)
          (users (snd (update_user_stats sample_utc 1 one_user)))
      = Some user' /\
    match User.last_interaction_date ada with
    | Some last =>
        let gap := date (sample_utc (clock_reads one_user)) - date last in
        (gap = 0 -> User.current_streak user' = User.current_streak ada) /\
        (gap = 1 ->
           User.current_streak user' = User.current_streak ada + 1) /\
        (gap > 1 -> User.current_streak user' = 1)
    | None => User.current_streak user' = 1
    end /\
    User.longest_streak user' =
      Z.max (User.longest_streak ada) (User.current_streak user').
Proof.
  split; [reflexivity|].
  apply (update_user_stats_streak_rule sample_utc 1 one_user ada).
  reflexivity.
Defined.

Lemma update_user_stats_unknown_user_witness :
  first (by_user_pk 7) (users one_user) = None /\
  update_user_stats sample_utc 7 one_user = (None, one_user).
Proof.
  split; [reflexivity|].
  apply (update_user_stats_unknown_user sample_utc 7 one_user).
  reflexivity.
Defined.

Lemma reachable_user_invariant_witness :
  reachable sample_utc sample_loads ascii_strip sample_dumps one_user /\
  Forall user_invariant (users one_user).
Proof.
  assert (H : reachable
      sample_utc sample_loads ascii_strip sample_dumps one_user).
  { apply play_reachable, reachable_empty. }
  split; [exact H|].
  exact (reachable_user_invariant
      sample_utc sample_loads ascii_strip sample_dumps
           one_user H).
Defined.

(** C4 as stated fails: two stores that agree on the user row (session
    count, streak, depth), on the breakthrough and identity-statement
    counts, on the people mentioned and on the achievements unlocked so
    far, and yet the pass unlocks different keys, because ["opening_up"]
    looks at the number of memories. *)
Lemma unlocked_keys_need_memory_count :
  users four_memories = users five_memories /\
  achievements four_memories = achievements five_memories /\
  List.filter Memory.is_breakthrough_moment (memories four_memories) =
    List.filter Memory.is_breakthrough_moment (memories five_memories) /\
  List.filter Memory.is_identity_statement (memories four_memories) =
    List.filter Memory.is_identity_statement (memories five_memories) /\
  Memory.people_mentioned <$> memories five_memories =
    [None; None; None; None; None] /\
  Achievement.achievement_key <$>
    fst (check_and_unlock_achievements sample_utc sample_loads ascii_strip 1
           four_memories) = [] /\
  Achievement.achievement_key <$>
    fst (check_and_unlock_achievements sample_utc sample_loads ascii_strip 1
           five_memories) = ["opening_up"].
Proof. repeat split; vm_compute; reflexivity. Qed.

Lemma check_and_unlock_achievements_once_witness :
  let r := check_and_unlock_achievements sample_utc sample_loads ascii_strip
             1 five_people in
  reachable sample_utc sample_loads ascii_strip sample_dumps (snd r) /\
  NoDup (achievement_pair <$> achievements (snd r)) /\
  Achievement.achievement_key <$> fst r =
    ["first_step"; "relationship_mapper"] /\
  achievements (snd r) = achievements five_people ++ fst r /\
  Forall (fun a => Achievement.user_id a = 1 /\
                   Achievement.celebrated a = false) (fst r) /\
  check_and_unlock_achievements sample_utc sample_loads ascii_strip 1
    (snd r) = ([], snd r).
Proof.
  intros r.
  assert (H : reachable sample_utc sample_loads ascii_strip sample_dumps
                (snd r)).
  { apply (reachable_run _ _ _ _ (CheckAndUnlockAchievements 1)).
    apply reachable_run, play_reachable, reachable_empty. }
  split; [exact H|].
  split.
  - exact (proj1 (check_and_unlock_achievements_once sample_utc sample_loads
                    ascii_strip sample_dumps) (snd r) H).
  - exact (proj2 (check_and_unlock_achievements_once sample_utc sample_loads
                    ascii_strip sample_dumps) 1 five_people).
Defined.

Lemma get_relevant_memories_sorted_witness :
  0 <= 2 /\
  Forall (fun m => m ∈ memories five_memories /\ Memory.user_id m = 1 /\
                   6 <= Memory.relevance_score m)
         (fst (get_relevant_memories 1 6 2 five_memories)) /\
  StronglySorted relevance_recency_desc
    (fst (get_relevant_memories 1 6 2 five_memories)) /\
  Z.of_nat (length (fst (get_relevant_memories 1 6 2 five_memories))) <= 2.
Proof.
  split; [lia|].
  apply (get_relevant_memories_sorted 1 6 2 five_memories). lia.
Defined.

(** C6 as stated fails: [batch_store_observations] stores the score it is
    given, here 11. *)
Lemma off_scale_score_is_stored :
  reachable sample_utc sample_loads ascii_strip sample_dumps off_scale_store /\
  Memory.relevance_score <$> memories off_scale_store = [11] /\
  ~ relevance_on_scale off_scale_store.
Proof.
  split; [apply reachable_run, reachable_empty|].
  split; [reflexivity|].
  unfold relevance_on_scale, on_scale. intros H.
  apply (proj2 (Forall_fmap Memory.relevance_score
                  (fun score => 1 <= score <= 10) _)) in H.
  change (Memory.relevance_score <$> memories off_scale_store)
    with [11] in H.
  apply Forall_cons in H as [H _]. lia.
Qed.

Lemma relevance_stays_on_scale_witness :
  reachable_on_scale
      sample_utc sample_loads ascii_strip sample_dumps five_memories /\
  relevance_on_scale five_memories.
Proof.
  assert (H : reachable_on_scale
      sample_utc sample_loads ascii_strip sample_dumps
                five_memories).
  { apply on_scale_run; [|cbn; unfold on_scale; lia].
    apply play_on_scale; [|apply on_scale_empty].
    repeat constructor; cbn; unfold on_scale; lia. }
  split; [exact H|].
  exact (relevance_stays_on_scale
      sample_utc sample_loads ascii_strip sample_dumps
           five_memories H).
Defined.

Lemma only_relevance_is_written_witness :
  writes_relevance (CreateSessionRecord 1 "hello" "welcome") = false /\
  take (length (memories five_memories))
       (memories (sample_run (CreateSessionRecord 1 "hello" "welcome")
                    five_memories)) = memories five_memories.
Proof.
  split; [reflexivity|].
  exact (proj1 (proj2 (only_relevance_is_written
      sample_utc sample_loads ascii_strip
                         sample_dumps
                         (CreateSessionRecord 1 "hello" "welcome")
                         five_memories)) eq_refl).
Defined.

Lemma celebrated_only_by_mark_witness :
  is_celebrate (UnlockAchievement 1 "three_day") = false /\
  take (length (achievements one_achievement))
       (achievements (sample_run (UnlockAchievement 1 "three_day")
                        one_achievement)) = achievements one_achievement.
Proof.
  split; [reflexivity|].
  exact (proj1 (proj2 (proj2 (celebrated_only_by_mark
      sample_utc sample_loads ascii_strip
                         sample_dumps (UnlockAchievement 1 "three_day")
                         one_achievement))) eq_refl).
Defined.

Lemma build_context_for_interaction_bounded_witness :
  0 <= 2 /\ 0 <= 3 /\
  exists user recent relevant,
    first (by_user_key "ada")
      (users (snd (build_context_for_interaction sample_utc "ada" 2 3
                     five_memories))) = Some user /\
    fst (build_context_for_interaction sample_utc "ada" 2 3 five_memories)
      !! "recent" = Some recent /\
    fst (build_context_for_interaction sample_utc "ada" 2 3 five_memories)
      !! "relevant" = Some relevant /\
    Z.of_nat (length recent) <= 2 /\
    Forall (fun m =>
              m ∈ memories (snd (build_context_for_interaction sample_utc
                                   "ada" 2 3 five_memories)) /\
              Memory.user_id m = User.id user) recent /\
    StronglySorted recency_desc recent /\
    Z.of_nat (length relevant) <= 3 /\
    Forall (fun m =>
              m ∈ memories (snd (build_context_for_interaction sample_utc
                                   "ada" 2 3 five_memories)) /\
              Memory.user_id m = User.id user /\
              7 <= Memory.relevance_score m) relevant.
Proof.
  split; [lia|]. split; [lia|].
  apply (build_context_for_interaction_bounded sample_utc "ada" 2 3
           five_memories); lia.
Defined.

(** ** Keys *)

Section Consistency.

Variable utc : nat -> datetime.
Variable json_loads : string -> option json.
Variable str_strip : string -> string.
Variable json_dumps : list json -> string.

Lemma preserves_ret (P : Store -> Prop) {A} (a : A) : preserves P (ret a).
Proof. intros s H. exact H. Qed.

Lemma preserves_bind (P : Store -> Prop) {A B} (c : M A) (k : A -> M B) :
  preserves P c -> (forall a, preserves P (k a)) -> preserves P (bind c k).
Proof.
  intros Hc Hk s H. unfold bind. specialize (Hc s H).
  destruct (c s) as [a s1]. by apply Hk.
Qed.

Lemma preserves_query (P : Store -> Prop) {A} (f : Store -> A) :
  preserves P (let* s := get in ret (f s)).
Proof. intros s H. exact H. Qed.

Lemma next_id_above (ids : list Z) (i : Z) : i ∈ ids -> i < next_id ids.
Proof.
  unfold next_id. induction ids as [|j ids IH]; intros Hin.
  - by apply elem_of_nil in Hin.
  - apply elem_of_cons in Hin as [->|Hin]; simpl; [lia|].
    specialize (IH Hin). lia.
Qed.

Lemma NoDup_next_id (ids : list Z) : NoDup ids -> NoDup (ids ++ [next_id ids]).
Proof.
  intros H. apply NoDup_app. split; [done|]. split; [|apply NoDup_singleton].
  intros i Hi Hin. apply list_elem_of_singleton in Hin.
  apply next_id_above in Hi. lia.
Qed.

Lemma first_None_Forall {A} (p : A -> bool) (rows : list A) :
  first p rows = None -> Forall (fun r => p r = false) rows.
Proof.
  unfold first. intros H. apply Forall_forall. intros r Hr.
  apply list_elem_of_In in Hr. by apply (find_none _ _ H).
Qed.

Lemma update_first_fmap {A B} (p : A -> bool) (f : A -> A) (g : A -> B)
    (rows : list A) :
  (forall r, p r = true -> g (f r) = g r) ->
  g <$> update_first p f rows = g <$> rows.
Proof.
  intros Hg. induction rows as [|r rows IH]; [done|]. cbn [update_first].
  destruct (p r) eqn:Hp; rewrite !fmap_cons.
  - by rewrite Hg.
  - by rewrite IH.
Qed.

Lemma update_first_found {A} (p : A -> bool) (f : A -> A) (rows : list A)
    (x : A) :
  first p rows = Some x ->
  update_first p f rows = update_first p (fun _ => f x) rows.
Proof.
  unfold first. induction rows as [|r rows IH]; [done|]. simpl.
  destruct (p r) eqn:Hp.
  - by intros [= ->].
  - intros H. by rewrite IH.
Qed.

Lemma stats_after_fields (now : datetime) (user : User.t) :
  let user' := stats_after now user in
  User.id user' = User.id user /\
  User.user_id user' = User.user_id user /\
  User.created_at user' = User.created_at user /\
  User.first_interaction_date user' =
    Some (default now (User.first_interaction_date user)) /\
  User.last_interaction_date user' = Some now /\
  User.total_sessions user' = User.total_sessions user + 1 /\
  User.current_streak user' =
    User.current_streak (calculate_streak now user) /\
  User.longest_streak user' =
    Z.max (User.longest_streak user) (User.current_streak user').
Proof.
  destruct user as [uid key created first_date last_date total current
                      longest depth].
  unfold stats_after, calculate_streak.
  destruct first_date as [first_date|], last_date as [last_date|];
    cbn -[Z.add Z.sub Z.max Z.div date];
    repeat (case_bool_decide; cbn -[Z.add Z.sub Z.max Z.div date]);
    cbn in *; repeat split; try reflexivity; lia.
Qed.

(** [update_user_stats] on an existing user: the row it returns and
    stores, and the two clock readings it takes. *)
Lemma update_user_stats_row (user_id : Z) (s : Store) (user : User.t) :
  first (by_user_pk user_id) (users s) = Some user ->
  exists depth,
    1 <= depth <= 5 /\
    update_user_stats utc user_id s =
      (Some (User.set_connection_depth depth
               (stats_after (utc (clock_reads s)) user)),
       mkStore
         (update_first (by_user_pk user_id)
            (fun _ => User.set_connection_depth depth
                        (stats_after (utc (clock_reads s)) user))
            (users s))
         (memories s) (sessions s) (achievements s)
         (S (S (clock_reads s)))).
Proof.
  intros Hfind. unfold update_user_stats, bind, get. cbn [fst snd].
  rewrite Hfind. unfold utcnow at 1. cbn [fst snd clock_reads users].
  change (User.set_total_sessions _ _)
    with (stats_after (utc (clock_reads s)) user).
  set (user1 := stats_after (utc (clock_reads s)) user).
  set (s1 := mkStore (users s) (memories s) (sessions s) (achievements s)
                     (S (clock_reads s))).
  pose proof (calculate_connection_depth_range utc user1 s1) as Hrange.
  pose proof (stats_after_fields (utc (clock_reads s)) user)
    as (_ & _ & _ & Hfirst & _).
  fold user1 in Hfirst.
  unfold _calculate_connection_depth in *. rewrite Hfirst in *.
  unfold bind, utcnow, modify, ret, with_users in *.
  cbn [fst snd users memories sessions achievements clock_reads s1] in *.
  eexists. split; [exact Hrange|]. reflexivity.
Qed.

Ltac run_monad :=
  unfold bind, get, utcnow, modify, ret, with_users, with_memories,
    with_sessions, with_achievements; simpl.

Lemma unlock_each_preserves (P : Store -> Prop) (user_id : Z)
    (checks : list (string * bool)) :
  (forall u k, preserves P (unlock_achievement utc u k)) ->
  preserves P (unlock_each utc user_id checks).
Proof.
  intros Hunlock.
  induction checks as [|[key condition] checks IH]; [apply preserves_ret|].
  cbn [unlock_each]. destruct condition; [|exact IH].
  apply preserves_bind; [apply Hunlock|]. intros a.
  apply preserves_bind; [exact IH|]. intros rest. apply preserves_ret.
Qed.

Lemma store_each_preserves (P : Store -> Prop) (user_pk : Z)
    (observations : list Observation) :
  (forall u o i c r f p d b,
     preserves P (create_memory utc u o i c r f p d b)) ->
  preserves P (store_each utc json_dumps user_pk observations).
Proof.
  intros Hcreate.
  induction observations as [|obs observations IH]; [apply preserves_ret|].
  cbn [store_each]. destruct (obs_observation obs) as [text|]; [|exact IH].
  destruct (nonempty text); [|exact IH].
  apply preserves_bind; [apply Hcreate|]. intros m.
  apply preserves_bind; [exact IH|]. intros rest. apply preserves_ret.
Qed.

(** A property kept by the seven writing methods of the repository is
    kept by every public call. *)
Lemma run_preserves (P : Store -> Prop) :
  (forall k, preserves P (get_or_create_user utc k)) ->
  (forall u o i c r f p d b,
     preserves P (create_memory utc u o i c r f p d b)) ->
  (forall m n, preserves P (update_memory_relevance m n)) ->
  (forall u i a, preserves P (create_session_record utc u i a)) ->
  (forall u, preserves P (update_user_stats utc u)) ->
  (forall u k, preserves P (unlock_achievement utc u k)) ->
  (forall a, preserves P (mark_achievement_celebrated a)) ->
  forall (c : Call) (s : Store),
  P s -> P (run utc json_loads str_strip json_dumps c s).
Proof.
  intros Hgoc Hmem Hrel Hses Hstats Hunlock Hmark c s.
  change (P s -> P (run utc json_loads str_strip json_dumps c s))
    with ((fun s => P s -> P (run utc json_loads str_strip json_dumps c s)) s).
  revert s. destruct c; cbn [run].
  - apply Hgoc.
  - apply Hmem.
  - apply Hrel.
  - apply Hses.
  - apply Hstats.
  - apply Hunlock.
  - apply Hmark.
  - unfold check_and_unlock_achievements.
    intros s H. unfold bind, get. cbv beta iota zeta.
    destruct (first (by_user_pk user_id) (users s)); [|exact H].
    by apply unlock_each_preserves.
  - apply preserves_bind; [apply Hgoc|]. intros user. apply Hmem.
  - apply preserves_bind; [apply Hgoc|]. intros user.
    by apply store_each_preserves.
  - intros s H. rewrite build_context_for_interaction_store. by apply Hgoc.
  - intros s H. rewrite get_pattern_history_store. by apply Hgoc.
  - apply Hrel.
  - apply Hrel.
  - apply preserves_bind; [apply Hgoc|]. intros user.
    apply preserves_bind; [apply Hses|]. intros row. apply preserves_ret.
  - intros s H. rewrite get_recent_interaction_context_store.
    by apply Hgoc.
Qed.

Lemma update_first_fmap_found {A B} (p : A -> bool) (y : A) (g : A -> B)
    (rows : list A) (x : A) :
  first p rows = Some x -> g y = g x ->
  g <$> update_first p (fun _ => y) rows = g <$> rows.
Proof.
  unfold first. intros Hfind Hg.
  induction rows as [|r rows IH]; [done|]. simpl in *.
  destruct (p r) eqn:Hp; rewrite !fmap_cons.
  - injection Hfind as ->. by rewrite Hg.
  - by rewrite IH.
Qed.

Lemma get_or_create_user_keys (user_id : string) :
  preserves keys_unique (get_or_create_user utc user_id).
Proof.
  intros s (Hu & Hk & Hrest). unfold keys_unique, get_or_create_user.
  run_monad.
  destruct (first (by_user_key user_id) (users s)) eqn:Hfind; simpl;
    [done|].
  rewrite !fmap_app. simpl. split; [by apply NoDup_next_id|].
  split; [|done]. apply NoDup_app. split; [done|].
  split; [|apply NoDup_singleton].
  intros k Hk' Hin. apply list_elem_of_singleton in Hin as ->.
  apply list_elem_of_fmap in Hk' as (u & Hkey & Hin).
  apply first_None_Forall in Hfind.
  apply (proj1 (Forall_forall _ _) Hfind) in Hin.
  unfold by_user_key in Hin. by apply bool_decide_eq_false in Hin.
Qed.

Lemma create_memory_keys u o i c r f p d b :
  preserves keys_unique (create_memory utc u o i c r f p d b).
Proof.
  intros s (Hu & Hk & Hm & Hrest). unfold keys_unique, create_memory.
  run_monad. rewrite fmap_app. simpl.
  split; [done|]. split; [done|]. split; [by apply NoDup_next_id | done].
Qed.

Lemma update_memory_relevance_keys m n :
  preserves keys_unique (update_memory_relevance m n).
Proof.
  intros s (Hu & Hk & Hm & Hrest). unfold keys_unique.
  destruct (update_memory_relevance_effect m n s)
    as (-> & -> & -> & -> & _).
  rewrite update_first_fmap; done.
Qed.

Lemma create_session_record_keys u i a :
  preserves keys_unique (create_session_record utc u i a).
Proof.
  intros s (Hu & Hk & Hm & Hs & Ha). unfold keys_unique, create_session_record.
  run_monad. rewrite fmap_app. simpl.
  repeat (split; [done|]). split; [by apply NoDup_next_id | done].
Qed.

Lemma update_user_stats_keys u :
  preserves keys_unique (update_user_stats utc u).
Proof.
  intros s (Hu & Hk & Hrest). unfold keys_unique.
  destruct (first (by_user_pk u) (users s)) as [user|] eqn:Hfind.
  - destruct (update_user_stats_row u s user Hfind) as (depth & _ & ->).
    cbn [snd users memories sessions achievements].
    pose proof (stats_after_fields (utc (clock_reads s)) user)
      as (Hid & Hkey & _).
    rewrite !(update_first_fmap_found _ _ _ _ user) by done.
    done.
  - unfold update_user_stats, bind, get, ret. cbv beta iota zeta.
    rewrite Hfind. done.
Qed.

Lemma unlock_achievement_keys u k :
  preserves keys_unique (unlock_achievement utc u k).
Proof.
  intros s (Hu & Hk & Hm & Hs & Ha).
  unfold keys_unique, unlock_achievement, has_achievement. run_monad.
  destruct (first (of_achievement u k) (achievements s)); simpl; [done|].
  rewrite fmap_app. simpl.
  repeat (split; [done|]). by apply NoDup_next_id.
Qed.

Lemma mark_achievement_celebrated_keys a :
  preserves keys_unique (mark_achievement_celebrated a).
Proof.
  intros s (Hu & Hk & Hm & Hs & Ha). unfold keys_unique.
  destruct (mark_achievement_celebrated_effect a s) as (-> & -> & -> & ->).
  rewrite update_first_fmap; done.
Qed.

(** X1: In every reachable state the primary keys of the four tables are
    unique, and so are the user keys. *)
Theorem reachable_keys_unique (s : Store) :
  reachable utc json_loads str_strip json_dumps s -> keys_unique s.
Proof.
  induction 1 as [|c s Hreach IH].
  - unfold keys_unique, empty_store. simpl. repeat split; constructor.
  - revert IH. apply run_preserves.
    + apply get_or_create_user_keys.
    + apply create_memory_keys.
    + apply update_memory_relevance_keys.
    + apply create_session_record_keys.
    + apply update_user_stats_keys.
    + apply unlock_achievement_keys.
    + apply mark_achievement_celebrated_keys.
Qed.

(** ** Counters *)

Lemma stats_after_consistent (now : datetime) (depth : Z) (user : User.t) :
  stats_consistent user ->
  stats_consistent (User.set_connection_depth depth (stats_after now user)).
Proof.
  intros (Hc & Hcl & Hlt & Hlast).
  pose proof (stats_after_fields now user)
    as (_ & _ & _ & Hfirst & Hlast' & Htotal & Hcur & Hlong).
  unfold stats_consistent.
  cbn [User.set_connection_depth User.current_streak User.longest_streak
       User.total_sessions User.last_interaction_date
       User.first_interaction_date].
  rewrite Hlast', Hfirst, Htotal, Hlong, Hcur.
  unfold calculate_streak.
  destruct (User.last_interaction_date user) as [last|].
  - destruct Hlast as (H1 & _).
    repeat case_bool_decide; cbn [User.current_streak User.set_current_streak];
      repeat split; eauto; lia.
  - destruct Hlast as (H0 & _).
    cbn [User.current_streak User.set_current_streak].
    repeat split; eauto; lia.
Qed.

Lemma users_same_preserves (Q : list User.t -> Prop) {A} (c : M A) :
  (forall s, users (snd (c s)) = users s) ->
  preserves (fun s => Q (users s)) c.
Proof. intros Hsame s H. by rewrite Hsame. Qed.

(** X2: In every reachable state, for every user:
    [0 <= current_streak <= longest_streak <= total_sessions]; a user who
    has interacted has a streak of at least 1 and a first interaction
    date; a user who has not has no session counted. *)
Theorem reachable_stats_consistent (s : Store) :
  reachable utc json_loads str_strip json_dumps s ->
  Forall stats_consistent (users s).
Proof.
  induction 1 as [|c s Hreach IH]; [constructor|].
  revert IH.
  apply (run_preserves (fun s => Forall stats_consistent (users s))).
  - intros k s0 H.
    destruct (get_or_create_user_effect utc k s0)
      as (_ & _ & _ & [-> | (-> & Hc & Hl & Hd)] & _); [done|].
    apply Forall_app. split; [done|]. constructor; [|constructor].
    revert Hc Hl Hd. unfold get_or_create_user. run_monad.
    destruct (first (by_user_key k) (users s0)) as [u|] eqn:Hfind; simpl.
    + apply first_Some in Hfind as [_ Hin].
      intros _ _ _. by apply (proj1 (Forall_forall _ _) H).
    + intros _ _ _. unfold stats_consistent. simpl. repeat split; lia.
  - intros. apply users_same_preserves. intros s0.
    apply create_memory_effect.
  - intros. apply users_same_preserves. intros s0.
    apply update_memory_relevance_effect.
  - intros. apply users_same_preserves. intros s0.
    apply create_session_record_effect.
  - intros u s0 H.
    destruct (first (by_user_pk u) (users s0)) as [user|] eqn:Hfind.
    + destruct (update_user_stats_row u s0 user Hfind) as (depth & _ & ->).
      cbn [snd users]. apply update_first_Forall; [|done]. intros _ _.
      apply stats_after_consistent.
      apply first_Some in Hfind as [_ Hin].
      by apply (proj1 (Forall_forall _ _) H).
    + unfold update_user_stats, bind, get, ret. cbv beta iota zeta.
      rewrite Hfind. done.
  - intros. apply users_same_preserves. intros s0.
    apply unlock_achievement_effect.
  - intros. apply users_same_preserves. intros s0.
    apply mark_achievement_celebrated_effect.
Qed.

(** ** Queries *)

(** A sorted and limited query returns a sorted prefix: what it leaves
    out comes after everything it returns. *)
Lemma limit_order_by_spec {A} (R : relation A) `{!RelDecision R}
    `{!Transitive R} `{!Total R} (n : Z) (rows : list A) :
  let result := sql_limit n (order_by R rows) in
  StronglySorted R result /\
  Forall (fun r => r ∈ rows) result /\
  (0 <= n -> Z.of_nat (length result) <= n) /\
  (forall x, x ∈ rows -> x ∈ result \/ Forall (fun r => R r x) result) /\
  (n < 0 \/ Z.of_nat (length rows) <= n -> result ≡ₚ rows).
Proof.
  intros result. subst result.
  destruct (sql_limit_sublist n (order_by R rows)) as [rest Hrest].
  assert (Hsorted : StronglySorted R (order_by R rows)).
  { unfold order_by. by apply StronglySorted_merge_sort. }
  assert (Hperm : order_by R rows ≡ₚ rows).
  { unfold order_by. apply merge_sort_Permutation. }
  split; [by apply sql_limit_StronglySorted|].
  split; [apply sql_limit_Forall, Forall_forall; intros r Hr;
          by rewrite <- Hperm|].
  split; [apply sql_limit_length|]. split.
  - intros x Hx. rewrite <- Hperm, Hrest in Hx.
    apply elem_of_app in Hx as [Hx|Hx]; [by left|right].
    apply Forall_forall. intros r Hr. rewrite Hrest in Hsorted.
    by apply (StronglySorted_app_1_elem_of R _ rest r x Hsorted).
  - intros Hall. rewrite <- Hperm at 2. unfold sql_limit.
    destruct (n <? 0) eqn:Hneg; [done|].
    apply Z.ltb_ge in Hneg. destruct Hall as [Hn|Hlen]; [lia|].
    rewrite take_ge; [done|].
    rewrite (Permutation_length Hperm). lia.
Qed.

Lemma elem_of_filter_bool {A} (p : A -> bool) (rows : list A) (x : A) :
  x ∈ List.filter p rows <-> x ∈ rows /\ p x = true.
Proof. rewrite !list_elem_of_In. apply filter_In. Qed.

(** X3: [get_recent_memories]: the rows returned are stored memories of the
    user (of the category, when one is given and is not the empty
    string), newest first, at most [limit], and a memory that qualifies
    and is left out is no newer than any returned one; an empty category
    string selects like no category. *)
Theorem get_recent_memories_newest (user_id limit : Z)
    (category : option string) (s : Store) :
  0 <= limit ->
  let qualifies m :=
    m ∈ memories s /\ Memory.user_id m = user_id /\
    match category with
    | Some c => c <> EmptyString -> Memory.category m = Some c
    | None => True
    end in
  let result := fst (get_recent_memories user_id limit category s) in
  Forall qualifies result /\
  StronglySorted recency_desc result /\
  Z.of_nat (length result) <= limit /\
  (forall m, qualifies m ->
     m ∈ result \/ Forall (fun r => recency_desc r m) result) /\
  get_recent_memories user_id limit (Some EmptyString) s =
    get_recent_memories user_id limit None s /\
  snd (get_recent_memories user_id limit category s) = s.
Proof.
  clear utc json_loads str_strip json_dumps.
  intros Hlimit qualifies result. subst qualifies result.
  unfold get_recent_memories, bind, get, ret. cbn [fst snd].
  match goal with
  | |- context [sql_limit limit (order_by recency_desc ?rows)] =>
      pose proof (limit_order_by_spec recency_desc limit rows)
        as (Hsorted & Hin & Hlen & Hbest & _);
      assert (Hrows : forall m, m ∈ rows <->
                m ∈ memories s /\ Memory.user_id m = user_id /\
                match category with
                | Some c => c <> EmptyString -> Memory.category m = Some c
                | None => True
                end)
  end.
  { intros m. destruct category as [c|].
    - unfold nonempty. case_bool_decide as Hc; cbn [negb].
      + rewrite elem_of_filter_bool. unfold of_user.
        rewrite bool_decide_eq_true. tauto.
      + rewrite !elem_of_filter_bool. unfold of_user, in_category.
        rewrite !bool_decide_eq_true. tauto.
    - rewrite elem_of_filter_bool. unfold of_user.
      rewrite bool_decide_eq_true. tauto. }
  split; [|split; [done|split; [by apply Hlen|split; [|done]]]].
  - eapply Forall_impl; [exact Hin|]. intros m Hm. by apply Hrows.
  - intros m Hm. apply Hbest. by apply Hrows.
Qed.

(** X4: [get_memories_by_category] returns exactly the stored memories of the
    user in the category, each once per stored row, newest first. *)
Theorem get_memories_by_category_complete (user_id : Z) (category : string)
    (s : Store) :
  let result := fst (get_memories_by_category user_id category s) in
  StronglySorted recency_desc result /\
  result ≡ₚ List.filter (in_category category)
              (List.filter (of_user user_id) (memories s)) /\
  (forall m, m ∈ result <->
     m ∈ memories s /\ Memory.user_id m = user_id /\
     Memory.category m = Some category).
Proof.
  clear utc json_loads str_strip json_dumps.
  intros result. subst result.
  unfold get_memories_by_category, bind, get, ret. cbn [fst].
  assert (Hperm : forall rows : list Memory.t,
            order_by recency_desc rows ≡ₚ rows).
  { intros rows. unfold order_by. apply merge_sort_Permutation. }
  split; [unfold order_by; apply StronglySorted_merge_sort; apply _|].
  split; [apply Hperm|].
  intros m. rewrite Hperm, !elem_of_filter_bool.
  unfold of_user, in_category. rewrite !bool_decide_eq_true. tauto.
Qed.

(** X5: [get_relevant_memories] returns the best: a stored memory of the user
    that reaches the threshold and is left out ranks no higher (by
    relevance, then recency) than every returned one, and nothing is left
    out when the limit is at least the number of such memories. *)
Theorem get_relevant_memories_best (user_id min_relevance limit : Z)
    (s : Store) :
  let result := fst (get_relevant_memories user_id min_relevance limit s) in
  (forall m, m ∈ memories s -> Memory.user_id m = user_id ->
     min_relevance <= Memory.relevance_score m ->
     m ∈ result \/ Forall (fun r => relevance_recency_desc r m) result) /\
  (Z.of_nat (length (memories s)) <= limit ->
   forall m, m ∈ memories s -> Memory.user_id m = user_id ->
     min_relevance <= Memory.relevance_score m -> m ∈ result).
Proof.
  intros result. subst result.
  unfold get_relevant_memories, bind, get, ret. cbn [fst].
  match goal with
  | |- context [sql_limit limit (order_by relevance_recency_desc ?rows)] =>
      pose proof (limit_order_by_spec relevance_recency_desc limit rows)
        as (_ & _ & _ & Hbest & Hall);
      assert (Hrows : forall m, m ∈ memories s ->
                Memory.user_id m = user_id ->
                min_relevance <= Memory.relevance_score m -> m ∈ rows)
  end.
  { intros m Hin Hu Hr. rewrite !elem_of_filter_bool.
    unfold of_user, at_least. rewrite !bool_decide_eq_true. done. }
  split.
  - intros m Hin Hu Hr. by apply Hbest, Hrows.
  - intros Hlen m Hin Hu Hr. rewrite Hall; [by apply Hrows|]. right.
    pose proof (List.filter_length_le (of_user user_id) (memories s)).
    pose proof (List.filter_length_le (at_least min_relevance)
                  (List.filter (of_user user_id) (memories s))).
    lia.
Qed.

(** X6: [get_identity_statements], [get_breakthrough_moments] and
    [get_follow_up_opportunities] return stored memories of the user that
    carry the flag (identity statement, breakthrough moment, a follow-up
    question that is not NULL), newest first, at most [limit]. *)
Theorem flagged_memories_newest (user_id limit : Z) (s : Store) :
  0 <= limit ->
  let flagged (flag : Memory.t -> bool) (result : list Memory.t) :=
    Forall (fun m => m ∈ memories s /\ Memory.user_id m = user_id /\
                     flag m = true) result /\
    StronglySorted recency_desc result /\
    Z.of_nat (length result) <= limit /\
    (forall m, m ∈ memories s -> Memory.user_id m = user_id ->
       flag m = true ->
       m ∈ result \/ Forall (fun r => recency_desc r m) result) in
  flagged Memory.is_identity_statement
          (fst (get_identity_statements user_id limit s)) /\
  flagged Memory.is_breakthrough_moment
          (fst (get_breakthrough_moments user_id limit s)) /\
  flagged (fun m => bool_decide (is_Some (Memory.follow_up_question m)))
          (fst (get_follow_up_opportunities user_id limit s)).
Proof.
  intros Hlimit flagged.
  assert (Hgen : forall (flag flag' : Memory.t -> bool),
            (forall m, flag m = flag' m) ->
            flagged flag'
              (sql_limit limit
                 (order_by recency_desc
                    (List.filter flag
                       (List.filter (of_user user_id) (memories s)))))).
  { intros flag flag' Hflag. subst flagged. cbv beta.
    match goal with
    | |- context [sql_limit limit (order_by recency_desc ?rows)] =>
        pose proof (limit_order_by_spec recency_desc limit rows)
          as (Hsorted & Hin & Hlen & Hbest & _);
        assert (Hrows : forall m, m ∈ rows <->
                  m ∈ memories s /\ Memory.user_id m = user_id /\
                  flag' m = true)
    end.
    { intros m. rewrite !elem_of_filter_bool. unfold of_user.
      rewrite bool_decide_eq_true, Hflag. tauto. }
    split; [|split; [done|split; [by apply Hlen|]]].
    - eapply Forall_impl; [exact Hin|]. intros m Hm. by apply Hrows.
    - intros m H1 H2 H3. apply Hbest. by apply Hrows. }
  split; [by apply Hgen|]. split; [by apply Hgen|].
  apply Hgen. intros m. unfold has_follow_up.
  by destruct (Memory.follow_up_question m).
Qed.

(** X7: [get_user_achievements] returns exactly the achievement rows of the
    user, latest unlock first; [get_uncelebrated_achievements] returns
    exactly those of them not yet celebrated, earliest unlock first. *)
Theorem achievement_lists_complete (user_id : Z) (s : Store) :
  let all := fst (get_user_achievements user_id s) in
  let pending := fst (get_uncelebrated_achievements user_id s) in
  StronglySorted unlocked_desc all /\
  (forall a, a ∈ all <->
     a ∈ achievements s /\ Achievement.user_id a = user_id) /\
  length all =
    length (List.filter (achievement_of user_id) (achievements s)) /\
  StronglySorted unlocked_asc pending /\
  (forall a, a ∈ pending <->
     a ∈ achievements s /\ Achievement.user_id a = user_id /\
     Achievement.celebrated a = false) /\
  (forall a, a ∈ pending -> a ∈ all).
Proof.
  intros all pending. subst all pending.
  unfold get_user_achievements, get_uncelebrated_achievements, bind, get,
    ret. cbn [fst].
  assert (Hdesc : forall rows : list Achievement.t,
            order_by unlocked_desc rows ≡ₚ rows).
  { intros rows. unfold order_by. apply merge_sort_Permutation. }
  assert (Hasc : forall rows : list Achievement.t,
            order_by unlocked_asc rows ≡ₚ rows).
  { intros rows. unfold order_by. apply merge_sort_Permutation. }
  assert (Hall : forall a,
            a ∈ order_by unlocked_desc
                  (List.filter (achievement_of user_id) (achievements s)) <->
            a ∈ achievements s /\ Achievement.user_id a = user_id).
  { intros a. rewrite Hdesc, elem_of_filter_bool. unfold achievement_of.
    by rewrite bool_decide_eq_true. }
  assert (Hpending : forall a,
            a ∈ order_by unlocked_asc
                  (List.filter uncelebrated
                     (List.filter (achievement_of user_id)
                        (achievements s))) <->
            a ∈ achievements s /\ Achievement.user_id a = user_id /\
            Achievement.celebrated a = false).
  { intros a. rewrite Hasc, !elem_of_filter_bool.
    unfold achievement_of, uncelebrated.
    rewrite bool_decide_eq_true, negb_true_iff. tauto. }
  split; [unfold order_by; apply StronglySorted_merge_sort; apply _|].
  split; [exact Hall|].
  split; [by rewrite (Permutation_length (Hdesc _))|].
  split; [unfold order_by; apply StronglySorted_merge_sort; apply _|].
  split; [exact Hpending|].
  intros a Ha. apply Hall. apply Hpending in Ha. tauto.
Qed.

(** ** Round trips *)

(** X8: [get_or_create_user] returns a user with the requested key; it adds
    a row only when none has the key, leaves the rows there untouched,
    and a second call with the same key returns the same user and leaves
    the store as it is. *)
Theorem get_or_create_user_again (user_id : string) (s : Store) :
  let r := get_or_create_user utc user_id s in
  User.user_id (fst r) = user_id /\
  match first (by_user_key user_id) (users s) with
  | Some user => r = (user, s)
  | None =>
      users (snd r) = users s ++ [fst r] /\
      User.total_sessions (fst r) = 0 /\
      User.first_interaction_date (fst r) = None /\
      User.last_interaction_date (fst r) = None
  end /\
  get_or_create_user utc user_id (snd r) = (fst r, snd r).
Proof.
  intros r.
  pose proof (get_or_create_user_effect utc user_id s)
    as (_ & _ & _ & _ & Hfind).
  fold r in Hfind. split; [|split].
  - apply first_Some in Hfind as [Hp _]. unfold by_user_key in Hp.
    by apply bool_decide_eq_true in Hp.
  - subst r. unfold get_or_create_user. run_monad.
    by destruct (first (by_user_key user_id) (users s)).
  - unfold get_or_create_user at 1. unfold bind, get. cbn [fst snd].
    by rewrite Hfind.
Qed.

Lemma first_update_first_other {A} (p q : A -> bool) (y : A)
    (rows : list A) (x u : A) :
  first p rows = Some x -> q y = q x -> first q rows = Some u ->
  exists u', first q (update_first p (fun _ => y) rows) = Some u' /\
             (u' = u \/ (u = x /\ u' = y)).
Proof.
  unfold first. induction rows as [|r rows IH]; [done|]. simpl.
  destruct (p r) eqn:Hp.
  - intros [= ->] Hq. simpl. rewrite Hq.
    destruct (q x); [|by eauto].
    intros [= ->]. eauto.
  - intros Hx Hq. simpl. destruct (q r); [by eauto|]. by apply IH.
Qed.

(** X9: No public call deletes or re-keys a user: a key that finds a user
    before the call finds one after it, with the same primary key and
    creation time. *)
Theorem users_persist (c : Call) (s : Store) (key : string) (u : User.t) :
  first (by_user_key key) (users s) = Some u ->
  exists u',
    first (by_user_key key) (users (run
        utc json_loads str_strip json_dumps c s))
      = Some u' /\
    User.id u' = User.id u /\ User.created_at u' = User.created_at u.
Proof.
  intros Hu.
  set (P := fun s' : Store =>
    exists u', first (by_user_key key) (users s') = Some u' /\
      User.id u' = User.id u /\ User.created_at u' = User.created_at u).
  assert (HP : P s) by (exists u; auto).
  revert HP. apply (run_preserves P); subst P; cbv beta.
  - intros k s0 (u' & Hfind & Hid).
    destruct (get_or_create_user_effect utc k s0)
      as (_ & _ & _ & [-> | (-> & _)] & _); [by eauto|].
    exists u'. split; [by apply first_app_Some | done].
  - intros ????????? s0 H.
    by rewrite (proj1 (create_memory_effect utc _ _ _ _ _ _ _ _ _ s0)).
  - intros ?? s0 H.
    by rewrite (proj1 (update_memory_relevance_effect _ _ s0)).
  - intros ??? s0 H.
    by rewrite (proj1 (create_session_record_effect utc _ _ _ s0)).
  - intros uid s0 (u' & Hfind & Hid & Hcreated).
    destruct (first (by_user_pk uid) (users s0)) as [user|] eqn:Hpk.
    + destruct (update_user_stats_row uid s0 user Hpk) as (depth & _ & ->).
      cbn [snd users].
      pose proof (stats_after_fields (utc (clock_reads s0)) user)
        as (Hi & Hk & Hc & _).
      match goal with
      | |- context [update_first _ (fun _ => ?y) _] =>
          destruct (first_update_first_other (by_user_pk uid)
                      (by_user_key key) y (users s0) user u' Hpk)
            as (u'' & Hfind' & Hcases)
      end;
        [unfold by_user_key;
         cbn [User.user_id User.set_connection_depth];
         by rewrite Hk | done |].
      exists u''. split; [done|].
      destruct Hcases as [-> | [-> ->]]; [done|].
      cbn [User.id User.created_at User.set_connection_depth].
      rewrite Hi, Hc. done.
    + unfold update_user_stats, bind, get, ret. cbv beta iota zeta.
      rewrite Hpk. by eauto.
  - intros ?? s0 H.
    by rewrite (proj1 (unlock_achievement_effect utc _ _ s0)).
  - intros ? s0 H.
    by rewrite (proj1 (mark_achievement_celebrated_effect _ s0)).
Qed.

(** X10: The interaction log is append-only: after any public call the
    session rows there before are still there, unchanged and in place. *)
Theorem sessions_append_only (c : Call) (s : Store) :
  sessions s `prefix_of` sessions (run utc json_loads str_strip json_dumps c s).
Proof.
  assert (HP : sessions s `prefix_of` sessions s) by done.
  revert HP.
  apply (run_preserves (fun s' => sessions s `prefix_of` sessions s')).
  - intros k s0 H.
    by destruct (get_or_create_user_effect utc k s0) as (_ & -> & _).
  - intros ????????? s0 H.
    by destruct (create_memory_effect utc u o i c0 r f p d b s0)
      as (_ & _ & -> & _).
  - intros ?? s0 H.
    by destruct (update_memory_relevance_effect m n s0)
      as (_ & _ & -> & _).
  - intros ??? s0 H. unfold create_session_record. run_monad.
    etrans; [exact H|]. by apply prefix_app_r.
  - intros u s0 H.
    by destruct (update_user_stats_effect utc u s0) as (_ & -> & _).
  - intros ?? s0 H.
    by destruct (unlock_achievement_effect utc u k s0) as (_ & _ & -> & _).
  - intros ? s0 H.
    by destruct (mark_achievement_celebrated_effect a s0)
      as (_ & _ & -> & _).
Qed.

(** X11: [update_memory_relevance] on an id that matches no memory returns
    [None] and leaves the store as it is; on an id that matches, it
    returns the memory with the new score, and looking the id up again
    finds that memory. *)
Theorem update_memory_relevance_lookup (memory_id new_score : Z)
    (s : Store) :
  let r := update_memory_relevance memory_id new_score s in
  match first (by_memory_pk memory_id) (memories s) with
  | None => r = (None, s)
  | Some memory =>
      fst r = Some (Memory.set_relevance_score new_score memory) /\
      first (by_memory_pk memory_id) (memories (snd r)) =
        Some (Memory.set_relevance_score new_score memory) /\
      Memory.relevance_score (Memory.set_relevance_score new_score memory)
        = new_score
  end.
Proof.
  intros r. subst r. unfold update_memory_relevance. run_monad.
  destruct (first (by_memory_pk memory_id) (memories s)) as [memory|]
    eqn:Hfind; simpl; [|done].
  repeat split.
  apply first_update_first; [done|].
  apply first_Some in Hfind as [Hp _]. exact Hp.
Qed.

(** X12: The service's promote and decay overwrite the score: whatever the
    score of an existing memory was, [mark_memory_as_significant] leaves
    it at 9 and [decay_memory_relevance] leaves it at 3, for every decay
    amount; so a decay after a promote gives 3, and a decay of a memory
    scored below 3 raises it. *)
Theorem promote_and_decay_overwrite (memory_id decay_amount : Z)
    (s : Store) (memory : Memory.t) :
  first (by_memory_pk memory_id) (memories s) = Some memory ->
  first (by_memory_pk memory_id)
        (memories (snd (mark_memory_as_significant memory_id s))) =
    Some (Memory.set_relevance_score 9 memory) /\
  first (by_memory_pk memory_id)
        (memories (snd (decay_memory_relevance memory_id decay_amount s))) =
    Some (Memory.set_relevance_score 3 memory) /\
  first (by_memory_pk memory_id)
        (memories (snd (decay_memory_relevance memory_id decay_amount
                          (snd (mark_memory_as_significant memory_id s))))) =
    Some (Memory.set_relevance_score 3 memory).
Proof.
  intros Hfind.
  assert (Hstep : forall score s0 m,
            first (by_memory_pk memory_id) (memories s0) = Some m ->
            first (by_memory_pk memory_id)
                  (memories (snd (update_memory_relevance memory_id score
                                    s0))) =
              Some (Memory.set_relevance_score score m)).
  { intros score s0 m Hm. unfold update_memory_relevance. run_monad.
    rewrite Hm. simpl. apply first_update_first; [done|].
    apply first_Some in Hm as [Hp _]. exact Hp. }
  unfold mark_memory_as_significant, decay_memory_relevance.
  split; [by apply Hstep|]. split; [by apply Hstep|].
  by rewrite (Hstep 3 _ _ (Hstep 9 _ _ Hfind)).
Qed.

(** X13: [unlock_achievement] is a guarded insert: afterwards the user has the
    achievement, a second unlock of the same key returns [None] and
    leaves the store as it is, and the achievements of other users and
    other keys are as before. *)
Theorem unlock_achievement_again (user_id : Z) (key : string) (s : Store) :
  let r := unlock_achievement utc user_id key s in
  fst (has_achievement user_id key (snd r)) = true /\
  unlock_achievement utc user_id key (snd r) = (None, snd r) /\
  (fst (has_achievement user_id key s) = true -> r = (None, s)) /\
  (forall user_id' key', (user_id', key') <> (user_id, key) ->
     fst (has_achievement user_id' key' (snd r)) =
     fst (has_achievement user_id' key' s)).
Proof.
  intros r.
  pose proof (unlock_achievement_effect utc user_id key s)
    as (_ & _ & _ & Hach). fold r in Hach.
  assert (Hhas : fst (has_achievement user_id key (snd r)) = true).
  { destruct (first (of_achievement user_id key) (achievements s))
      eqn:Hfind.
    - rewrite Hach. rewrite has_achievement_unfold. simpl.
      by rewrite Hfind.
    - destruct Hach as (a & _ & Ha & Hu & Hk & _).
      apply has_achievement_iff. exists a. split.
      + rewrite Ha. apply elem_of_app. right. apply list_elem_of_here.
      + unfold achievement_pair. by rewrite Hu, Hk. }
  split; [exact Hhas|]. split; [|split].
  - rewrite has_achievement_unfold in Hhas. simpl in Hhas.
    unfold unlock_achievement at 1. unfold bind.
    rewrite has_achievement_unfold.
    by destruct (first (of_achievement user_id key) (achievements (snd r))).
  - rewrite has_achievement_unfold. simpl.
    by destruct (first (of_achievement user_id key) (achievements s)).
  - intros user_id' key' Hne.
    destruct (first (of_achievement user_id key) (achievements s)).
    + by rewrite Hach.
    + destruct Hach as (a & _ & Ha & Hu & Hk & _).
      destruct (fst (has_achievement user_id' key' s)) eqn:Hs.
      * by apply (has_achievement_mono _ _ s _ [a]).
      * destruct (fst (has_achievement user_id' key' (snd r))) eqn:Hs';
          [|done].
        apply has_achievement_iff in Hs' as (b & Hin & Hpair).
        rewrite Ha in Hin. apply elem_of_app in Hin as [Hin|Hin].
        -- assert (fst (has_achievement user_id' key' s) = true) as Habs
             by (apply has_achievement_iff; eauto).
           congruence.
        -- apply list_elem_of_singleton in Hin as ->.
           unfold achievement_pair in Hpair. congruence.
Qed.

Lemma update_first_idem {A} (p : A -> bool) (f : A -> A) (rows : list A) :
  (forall r, p r = true -> p (f r) = true) ->
  (forall r, f (f r) = f r) ->
  update_first p f (update_first p f rows) = update_first p f rows.
Proof.
  intros Hp Hf. induction rows as [|r rows IH]; [done|]. simpl.
  destruct (p r) eqn:Hr; simpl.
  - by rewrite Hp, Hf.
  - by rewrite Hr, IH.
Qed.

Lemma update_first_elem_found {A} (p : A -> bool) (f : A -> A)
    (rows : list A) (r : A) :
  first p rows = Some r -> f r ∈ update_first p f rows.
Proof.
  unfold first. induction rows as [|x rows IH]; [done|]. simpl.
  destruct (p x) eqn:Hx.
  - intros [= ->]. apply list_elem_of_here.
  - intros H. apply list_elem_of_further. by apply IH.
Qed.

Lemma NoDup_fmap_eq {A B} (g : A -> B) (rows : list A) (x y : A) :
  NoDup (g <$> rows) -> x ∈ rows -> y ∈ rows -> g x = g y -> x = y.
Proof.
  induction rows as [|r rows IH]; intros Hnd Hx Hy Hg.
  - by apply elem_of_nil in Hx.
  - rewrite fmap_cons in Hnd. apply NoDup_cons in Hnd as [Hfresh Hnd].
    apply elem_of_cons in Hx as [->|Hx], Hy as [->|Hy]; [done|..].
    + exfalso. apply Hfresh. rewrite Hg. by apply list_elem_of_fmap_2.
    + exfalso. apply Hfresh. rewrite <- Hg. by apply list_elem_of_fmap_2.
    + by apply IH.
Qed.

(** X14: [mark_achievement_celebrated] on an id that matches no row returns
    [None] and leaves the store as it is; on a match it returns the row
    with [celebrated = True]; marking again changes nothing more; and,
    the primary keys being unique, the row is no longer among the
    uncelebrated achievements of any user. *)
Theorem mark_achievement_celebrated_settles (achievement_id : Z)
    (s : Store) :
  NoDup (Achievement.id <$> achievements s) ->
  let r := mark_achievement_celebrated achievement_id s in
  match first (by_achievement_pk achievement_id) (achievements s) with
  | None => r = (None, s)
  | Some a => fst r = Some (Achievement.set_celebrated true a)
  end /\
  snd (mark_achievement_celebrated achievement_id (snd r)) = snd r /\
  (forall user_id a,
     a ∈ fst (get_uncelebrated_achievements user_id (snd r)) ->
     Achievement.id a <> achievement_id).
Proof.
  intros Hnd r.
  pose proof (mark_achievement_celebrated_effect achievement_id s)
    as (_ & _ & _ & Hach). fold r in Hach.
  split; [|split].
  - subst r. unfold mark_achievement_celebrated. run_monad.
    by destruct (first (by_achievement_pk achievement_id) (achievements s)).
  - destruct (snd r) as [us ms ss ach reads] eqn:Hr. simpl in Hach.
    unfold mark_achievement_celebrated. run_monad.
    assert (Hidem : update_first (by_achievement_pk achievement_id)
                      (Achievement.set_celebrated true) ach = ach).
    { rewrite Hach. by apply update_first_idem. }
    destruct (first (by_achievement_pk achievement_id) ach); simpl;
      by rewrite ?Hidem.
  - intros user_id a Ha Hid.
    unfold get_uncelebrated_achievements, bind, get, ret in Ha.
    cbn [fst] in Ha.
    assert (Hperm : forall rows : list Achievement.t,
              order_by unlocked_asc rows ≡ₚ rows).
    { intros rows. unfold order_by. apply merge_sort_Permutation. }
    rewrite Hperm, !elem_of_filter_bool, Hach in Ha.
    destruct Ha as ((Hin & _) & Hunc).
    unfold uncelebrated in Hunc. apply negb_true_iff in Hunc.
    destruct (first (by_achievement_pk achievement_id) (achievements s))
      as [row|] eqn:Hfind.
    + assert (Heq : a = Achievement.set_celebrated true row).
      { apply (NoDup_fmap_eq Achievement.id
                 (update_first (by_achievement_pk achievement_id)
                    (Achievement.set_celebrated true) (achievements s)));
          [by rewrite update_first_fmap | done
          | by apply update_first_elem_found |].
        simpl. apply first_Some in Hfind as [Hp _].
        unfold by_achievement_pk in Hp.
        apply bool_decide_eq_true in Hp. congruence. }
      subst a. done.
    + rewrite update_first_None in Hin by done.
      apply first_None_Forall in Hfind.
      apply (proj1 (Forall_forall _ _) Hfind) in Hin.
      unfold by_achievement_pk in Hin.
      by apply bool_decide_eq_false in Hin.
Qed.

(** X15: [update_user_stats] on an existing user counts one more session,
    stamps the last interaction with the clock, sets the first
    interaction only when there was none, resets the streak to 1 when the
    last interaction is dated after today, keeps the key and creation
    time, and leaves every user with another id and the other three
    tables as they were. *)
Theorem update_user_stats_frame (user_id : Z) (s : Store) (user : User.t) :
  first (by_user_pk user_id) (users s) = Some user ->
  let r := update_user_stats utc user_id s in
  let now := utc (clock_reads s) in
  exists user',
    fst r = Some user' /\
    User.user_id user' = User.user_id user /\
    User.created_at user' = User.created_at user /\
    User.total_sessions user' = User.total_sessions user + 1 /\
    User.last_interaction_date user' = Some now /\
    User.first_interaction_date user' =
      Some (default now (User.first_interaction_date user)) /\
    (forall last, User.last_interaction_date user = Some last ->
       date now < date last -> User.current_streak user' = 1) /\
    Forall2 (fun u u' => User.id u <> user_id -> u' = u)
            (users s) (users (snd r)) /\
    memories (snd r) = memories s /\
    sessions (snd r) = sessions s /\
    achievements (snd r) = achievements s.
Proof.
  intros Hfind r now. subst r now.
  destruct (update_user_stats_row user_id s user Hfind) as (depth & _ & ->).
  pose proof (stats_after_fields (utc (clock_reads s)) user)
    as (_ & Hkey & Hcreated & Hfirst & Hlast & Htotal & Hcur & _).
  eexists. split; [reflexivity|].
  cbn [fst snd users memories sessions achievements
       User.set_connection_depth User.user_id User.created_at
       User.total_sessions User.last_interaction_date
       User.first_interaction_date User.current_streak].
  repeat (split; [done|]). split; [|split; [|done]].
  - intros last Hl Hgap. rewrite Hcur. unfold calculate_streak.
    rewrite Hl. repeat case_bool_decide; simpl; lia.
  - apply update_first_Forall2; [done|].
    intros u Hp Hne. unfold by_user_pk in Hp.
    by apply bool_decide_eq_true in Hp.
Qed.

(** ** Reports *)

Lemma py_or_zero (x : Z) : py_or x 0 = x.
Proof. unfold py_or. by case_bool_decide. Qed.

(** X16: [get_streak_status]: for an unknown user everything is zero or false
    and the clock is not read; for a known user the streak reported is
    the stored one, "interacted today" means the last interaction falls
    on the clock's day, and the streak is at risk exactly when there is a
    last interaction on another day and the streak is positive; the two
    flags are never both set; no table changes. *)
Theorem get_streak_status_report (user_id : Z) (s : Store) :
  let r := get_streak_status utc user_id s in
  let today := date (utc (clock_reads s)) in
  users (snd r) = users s /\ memories (snd r) = memories s /\
  sessions (snd r) = sessions s /\ achievements (snd r) = achievements s /\
  match first (by_user_pk user_id) (users s) with
  | None => r = (mkStreakStatus 0 false false 0, s)
  | Some user =>
      status_current_streak (fst r) = User.current_streak user /\
      status_longest_streak (fst r) = User.longest_streak user /\
      (status_has_interacted_today (fst r) = true <->
       exists last, User.last_interaction_date user = Some last /\
                    date last = today) /\
      (status_streak_at_risk (fst r) = true <->
       exists last, User.last_interaction_date user = Some last /\
                    date last <> today /\ 0 < User.current_streak user) /\
      (status_streak_at_risk (fst r) = true ->
       status_has_interacted_today (fst r) = false)
  end.
Proof.
  intros r today. subst r today. unfold get_streak_status. run_monad.
  destruct (first (by_user_pk user_id) (users s)) as [user|]; simpl;
    [|done].
  repeat (split; [done|]). rewrite !py_or_zero.
  split; [done|]. split; [done|].
  destruct (User.last_interaction_date user) as [last|].
  - split; [|split].
    + rewrite bool_decide_eq_true. split; [by eauto|].
      by intros (l & [= <-] & H).
    + rewrite andb_true_iff, negb_true_iff, bool_decide_eq_true,
        bool_decide_eq_false.
      split; [by intros [H1 H2]; eauto|].
      by intros (l & [= <-] & H1 & H2).
    + rewrite andb_true_iff, negb_true_iff. tauto.
  - split; [|split; [|done]].
    + split; [done|]. by intros (l & H & _).
    + split; [done|]. by intros (l & H & _).
Qed.

(** X17: After [update_user_stats] on an existing user, as long as the clock
    is still on the day of that interaction, [get_streak_status] reports
    that the user has interacted today and that the streak is not at
    risk, with the streak just stored. *)
Theorem streak_safe_after_interaction (user_id : Z) (s : Store)
    (user : User.t) :
  first (by_user_pk user_id) (users s) = Some user ->
  date (utc (S (S (clock_reads s)))) = date (utc (clock_reads s)) ->
  let r := update_user_stats utc user_id s in
  let status := fst (get_streak_status utc user_id (snd r)) in
  status_has_interacted_today status = true /\
  status_streak_at_risk status = false /\
  Some (status_current_streak status) = User.current_streak <$> fst r.
Proof.
  intros Hfind Hday r status. subst r status.
  destruct (update_user_stats_row user_id s user Hfind) as (depth & _ & ->).
  pose proof (stats_after_fields (utc (clock_reads s)) user)
    as (Hid & _ & _ & _ & Hlast & _).
  cbn [fst snd]. unfold get_streak_status, bind, get. cbn [fst snd users].
  match goal with
  | |- context [update_first _ (fun _ => ?y) _] =>
      rewrite (first_update_first (by_user_pk user_id) (fun _ => y)
                 (users s) user Hfind)
  end.
  2:{ apply first_Some in Hfind as [Hp _]. unfold by_user_pk in *.
      cbn [User.id User.set_connection_depth]. by rewrite Hid. }
  unfold utcnow, ret.
  cbn [fst snd clock_reads User.set_connection_depth
       User.last_interaction_date User.current_streak
       status_has_interacted_today status_streak_at_risk
       status_current_streak].
  rewrite Hlast, py_or_zero, Hday.
  rewrite bool_decide_eq_true_2 by done.
  cbn [negb fmap option_fmap option_map User.current_streak].
  rewrite andb_false_r. done.
Qed.

(** X18: [get_user_relationship_stats]: for an unknown user the defaults and
    no clock read; for a known user whose depth is in 1..5 the counters
    reported are the stored ones, the label is the entry of the depth in
    [depth_labels], and the days together are one more than the whole
    days since the first interaction (zero when there was none, at least
    one when the clock is not before the first interaction). *)
Theorem get_user_relationship_stats_report (user_id : Z) (s : Store) :
  let r := get_user_relationship_stats utc user_id s in
  match first (by_user_pk user_id) (users s) with
  | None =>
      r = (mkRelationshipStats 0 0 0 0 1 "Getting to know each other", s)
  | Some user =>
      1 <= User.connection_depth user <= 5 ->
      stats_total_sessions (fst r) = User.total_sessions user /\
      stats_current_streak (fst r) = User.current_streak user /\
      stats_longest_streak (fst r) = User.longest_streak user /\
      stats_connection_depth (fst r) = User.connection_depth user /\
      depth_labels !! User.connection_depth user =
        Some (stats_connection_depth_label (fst r)) /\
      match User.first_interaction_date user with
      | None => stats_days_together (fst r) = 0
      | Some first_date =>
          stats_days_together (fst r) =
            timedelta_days (utc (clock_reads s)) first_date + 1 /\
          (first_date <= utc (clock_reads s) ->
           1 <= stats_days_together (fst r))
      end
  end.
Proof.
  intros r. subst r. unfold get_user_relationship_stats, bind, get.
  cbn [fst snd].
  destruct (first (by_user_pk user_id) (users s)) as [user|]; [|done].
  intros Hdepth.
  assert (Hor : py_or (User.connection_depth user) 1 =
                User.connection_depth user).
  { unfold py_or. case_bool_decide; [lia | done]. }
  assert (Hlabel : depth_labels !! User.connection_depth user =
            Some (default "Getting to know each other"
                    (depth_labels !! User.connection_depth user))).
  { assert (Hcases : User.connection_depth user = 1 \/
                     User.connection_depth user = 2 \/
                     User.connection_depth user = 3 \/
                     User.connection_depth user = 4 \/
                     User.connection_depth user = 5) by lia.
    destruct Hcases as [-> | [-> | [-> | [-> | ->]]]]; reflexivity. }
  destruct (User.first_interaction_date user) as [first_date|];
    unfold utcnow, ret; cbn [fst snd stats_total_sessions
      stats_current_streak stats_longest_streak stats_connection_depth
      stats_connection_depth_label stats_days_together];
    rewrite !py_or_zero, Hor; repeat (split; [done|]); [|done].
  intros Hle. unfold timedelta_days, us_per_day.
  assert (0 <= (utc (clock_reads s) - first_date) / 86400000000)
    by (apply Z.div_pos; lia).
  lia.
Qed.

Lemma connection_depth_formula (user : User.t) (s : Store) :
  fst (_calculate_connection_depth utc user s) =
  Z.max 1 (Z.min 5
    (session_base (User.total_sessions user) +
     (if bool_decide (3 <= User.current_streak user) then 1 else 0) +
     match User.first_interaction_date user with
     | Some first_date =>
         if bool_decide
              (30 <= timedelta_days (utc (clock_reads s)) first_date)
         then 1 else 0
     | None => 0
     end)).
Proof.
  unfold _calculate_connection_depth, session_base.
  destruct (User.first_interaction_date user) as [first_date|];
    unfold bind, utcnow, ret; simpl;
    repeat case_bool_decide; lia.
Qed.

Lemma session_base_mono (a b : Z) :
  a <= b -> session_base a <= session_base b.
Proof. unfold session_base. intros H. repeat case_bool_decide; lia. Qed.

(** X19: The connection depth never goes down when the session count and the
    streak do not and the clock does not go back: for two versions of a
    user with the same first interaction date, more sessions, a longer
    streak and a later clock give a depth at least as large. *)
Theorem connection_depth_monotone (user user' : User.t) (s s' : Store) :
  User.first_interaction_date user' = User.first_interaction_date user ->
  User.total_sessions user <= User.total_sessions user' ->
  User.current_streak user <= User.current_streak user' ->
  utc (clock_reads s) <= utc (clock_reads s') ->
  fst (_calculate_connection_depth utc user s) <=
  fst (_calculate_connection_depth utc user' s').
Proof.
  intros Hfirst Htotal Hstreak Hclock.
  rewrite !connection_depth_formula, Hfirst.
  pose proof (session_base_mono _ _ Htotal) as Hbase.
  assert (Hbonus :
    (if bool_decide (3 <= User.current_streak user) then 1 else 0) <=
    (if bool_decide (3 <= User.current_streak user') then 1 else 0))
    by (repeat case_bool_decide; lia).
  destruct (User.first_interaction_date user) as [first_date|]; [|lia].
  assert (Hdays : timedelta_days (utc (clock_reads s)) first_date <=
                  timedelta_days (utc (clock_reads s')) first_date).
  { unfold timedelta_days, us_per_day. apply Z.div_le_mono; lia. }
  repeat case_bool_decide; lia.
Qed.

(** ** Writing memories and sessions *)

Lemma store_each_rows (user_pk : Z) (observations : list Observation) :
  forall s : Store,
  Forall2
    (fun obs m =>
       Memory.user_id m = user_pk /\
       Some (Memory.observation m) = obs_observation obs /\
       Memory.relevance_score m = default 5 (obs_relevance_score obs) /\
       Memory.interpretation m = obs_interpretation obs /\
       Memory.category m = obs_category obs /\
       Memory.follow_up_question m = obs_follow_up_question obs /\
       Memory.is_identity_statement m =
         default false (obs_is_identity_statement obs) /\
       Memory.is_breakthrough_moment m =
         default false (obs_is_breakthrough_moment obs))
    (List.filter
       (fun obs => from_option nonempty false (obs_observation obs))
       observations)
    (fst (store_each utc json_dumps user_pk observations s)).
Proof.
  induction observations as [|obs observations IH]; intros s;
    [constructor|].
  cbn [store_each List.filter].
  destruct (obs_observation obs) as [text|] eqn:Htext;
    cbn [from_option]; [|apply IH].
  destruct (nonempty text); [|apply IH].
  unfold bind.
  match goal with
  | |- context [create_memory utc ?u ?o ?i ?c ?r ?f ?p ?d ?b s] =>
      destruct (create_memory utc u o i c r f p d b s) as [m s1] eqn:Hm
  end.
  specialize (IH s1).
  destruct (store_each utc json_dumps user_pk observations s1)
    as [rest s2].
  unfold ret. cbn [fst] in *. constructor; [|exact IH].
  unfold create_memory in Hm. revert Hm. run_monad. intros [= <- _].
  simpl. by rewrite Htext.
Qed.

(** X20: [batch_store_observations] stores, for the user with the given key
    (created when missing), one memory for each observation whose text is
    present and not empty, in order, and skips the others; each memory
    carries the observation's text, interpretation, category, follow-up
    question and flags, and its relevance score or 5 when it gives none;
    the sessions and the achievements are untouched. *)
Theorem batch_store_observations_rows (user_id : string)
    (observations : list Observation) (s : Store) :
  let r := batch_store_observations utc json_dumps user_id observations s in
  exists user,
    first (by_user_key user_id) (users (snd r)) = Some user /\
    memories (snd r) = memories s ++ fst r /\
    Forall2
      (fun obs m =>
         Memory.user_id m = User.id user /\
         Some (Memory.observation m) = obs_observation obs /\
         Memory.relevance_score m = default 5 (obs_relevance_score obs) /\
         Memory.interpretation m = obs_interpretation obs /\
         Memory.category m = obs_category obs /\
         Memory.follow_up_question m = obs_follow_up_question obs /\
         Memory.is_identity_statement m =
           default false (obs_is_identity_statement obs) /\
         Memory.is_breakthrough_moment m =
           default false (obs_is_breakthrough_moment obs))
      (List.filter
         (fun obs => from_option nonempty false (obs_observation obs))
         observations)
      (fst r) /\
    sessions (snd r) = sessions s /\
    achievements (snd r) = achievements s.
Proof.
  intros r. subst r. unfold batch_store_observations, bind.
  pose proof (get_or_create_user_effect utc user_id s) as Hg.
  destruct (get_or_create_user utc user_id s) as [user s1].
  cbn [fst snd] in Hg. destruct Hg as (Hm & Hs & Ha & _ & Hfind).
  pose proof (store_each_effect utc json_dumps (User.id user) observations
                s1) as He.
  pose proof (store_each_rows (User.id user) observations s1) as Hrows.
  destruct (store_each utc json_dumps (User.id user) observations s1)
    as [ms s2].
  cbn [fst snd] in *. destruct He as (Hu2 & Hs2 & Ha2 & Hm2 & _).
  exists user. rewrite Hu2, Hm2, Hm, Hs2, Hs, Ha2, Ha. done.
Qed.

(** X21: [log_interaction] appends exactly one session row, for the user with
    the given key (created when missing), holding the input and the
    response, stamped with the clock; memories and achievements are
    untouched. *)
Theorem log_interaction_row (user_id user_input agent_response : string)
    (s : Store) :
  let r := log_interaction utc user_id user_input agent_response s in
  exists user row,
    first (by_user_key user_id) (users (snd r)) = Some user /\
    sessions (snd r) = sessions s ++ [row] /\
    SessionModel.user_id row = User.id user /\
    SessionModel.user_input row = user_input /\
    SessionModel.agent_response row = agent_response /\
    (SessionModel.id row ∉ SessionModel.id <$> sessions s) /\
    memories (snd r) = memories s /\
    achievements (snd r) = achievements s.
Proof.
  intros r. subst r. unfold log_interaction, bind.
  pose proof (get_or_create_user_effect utc user_id s) as Hg.
  destruct (get_or_create_user utc user_id s) as [user s1].
  cbn [fst snd] in Hg. destruct Hg as (Hm & Hs & Ha & _ & Hfind).
  unfold create_session_record. run_monad.
  exists user. eexists. rewrite Hs, Hm, Ha.
  split; [exact Hfind|]. split; [reflexivity|]. simpl.
  repeat (split; [done|]). split; [|done].
  intros Hin. apply next_id_above in Hin. lia.
Qed.

(** X22: After an interaction is counted for an existing user with a
    non-negative session count, the next achievement pass leaves
    ["first_step"] unlocked, and ["three_day"], ["week_warrior"] and
    ["month_master"] when the stored streak has reached 3, 7 and 30. *)
Theorem streak_achievements_after_interaction (user_id : Z) (s : Store)
    (user : User.t) :
  first (by_user_pk user_id) (users s) = Some user ->
  0 <= User.total_sessions user ->
  let r := update_user_stats utc user_id s in
  let s' := snd (check_and_unlock_achievements utc json_loads str_strip user_id
                   (snd r)) in
  let streak := default 0 (User.current_streak <$> fst r) in
  fst (has_achievement user_id "first_step" s') = true /\
  (3 <= streak -> fst (has_achievement user_id "three_day" s') = true) /\
  (7 <= streak -> fst (has_achievement user_id "week_warrior" s') = true) /\
  (30 <= streak -> fst (has_achievement user_id "month_master" s') = true).
Proof.
  intros Hfind Htotal r s' streak. subst r s' streak.
  destruct (update_user_stats_row user_id s user Hfind) as (depth & _ & ->).
  pose proof (stats_after_fields (utc (clock_reads s)) user)
    as (Hid & _ & _ & _ & _ & Htot & _).
  cbn [fst snd fmap option_fmap option_map default from_option
       User.current_streak User.set_connection_depth].
  set (user' := User.set_connection_depth depth
                  (stats_after (utc (clock_reads s)) user)).
  set (s1 := mkStore _ _ _ _ _).
  assert (Hfind' : first (by_user_pk user_id) (users s1) = Some user').
  { subst s1. cbn [users].
    apply (first_update_first _ (fun _ => user') _ user Hfind).
    apply first_Some in Hfind as [Hp _]. unfold by_user_pk in *.
    subst user'. cbn [User.id User.set_connection_depth]. by rewrite Hid. }
  unfold check_and_unlock_achievements, bind, get. cbv beta iota zeta.
  rewrite Hfind'.
  assert (Htot' : User.total_sessions user' = User.total_sessions user + 1)
    by (subst user'; cbn [User.total_sessions User.set_connection_depth];
        exact Htot).
  change (User.current_streak (stats_after (utc (clock_reads s)) user))
    with (User.current_streak user').
  assert (Hmem : forall n key (P : Prop) `{!Decision P},
            achievement_checks (User.total_sessions user')
              (User.current_streak user')
              (py_or (User.connection_depth user') 1)
              (count (List.filter Memory.is_breakthrough_moment
                        (List.filter (of_user user_id) (memories s1))))
              (count (List.filter Memory.is_identity_statement
                        (List.filter (of_user user_id) (memories s1))))
              (Z.of_nat (size (foldl (add_people json_loads str_strip) ∅
                 (fst (get_recent_memories user_id 1000 None s1)))))
              (count (fst (get_recent_memories user_id 1000 None s1)))
              !! n = Some (key, bool_decide P) ->
            P ->
            fst (has_achievement user_id key
                   (snd (unlock_each utc user_id
                           (evaluate_checks
                               json_loads str_strip user_id user' s1)
                           s1))) = true).
  { intros n key P ? Hn HP. apply unlock_each_complete.
    unfold evaluate_checks. cbv zeta. rewrite !py_or_zero.
    apply list_elem_of_lookup. exists n.
    rewrite Hn. by rewrite bool_decide_eq_true_2. }
  split; [|split; [|split]].
  - apply (Hmem 0%nat _ (1 <= User.total_sessions user') _); [done | lia].
  - intros H. by apply (Hmem 2%nat _ (3 <= User.current_streak user') _).
  - intros H. by apply (Hmem 3%nat _ (7 <= User.current_streak user') _).
  - intros H. by apply (Hmem 4%nat _ (30 <= User.current_streak user') _).
Qed.

End Consistency.

(** ** One turn of conversation *)

Section TurnProperties.

Variable utc : nat -> datetime.
Variable json_dumps : list json -> string.
Variable generate_response :
  string -> list Memory.t -> list Memory.t ->
  list (string * string * datetime) -> RelationshipStats -> option string.
Variable extract_memories :
  string -> string -> string -> option (list extracted).

Lemma bind_apply {A B} (c : M A) (k : A -> M B) (s : Store) :
  bind c k s = k (fst (c s)) (snd (c s)).
Proof. unfold bind. by destruct (c s). Qed.

Lemma get_or_create_user_found (key : string) (s : Store) (u : User.t) :
  first (by_user_key key) (users s) = Some u ->
  get_or_create_user utc key s = (u, s).
Proof.
  intros H. unfold get_or_create_user, bind, get. cbn [fst snd].
  by rewrite H.
Qed.




Lemma store_each_user (user_pk : Z) (observations : list Observation) :
  forall s : Store,
  Forall (fun m => Memory.user_id m = user_pk)
         (fst (store_each utc json_dumps user_pk observations s)).
Proof.
  induction observations as [|obs observations IH]; intros s;
    [constructor|].
  cbn [store_each].
  destruct (obs_observation obs) as [text|]; [|apply IH].
  destruct (nonempty text); [|apply IH].
  rewrite bind_apply, bind_apply. unfold ret. cbn [fst].
  constructor; [|apply IH]. apply create_memory_effect.
Qed.

Lemma batch_store_observations_existing (key : string)
    (observations : list Observation) (s : Store) (u : User.t) :
  first (by_user_key key) (users s) = Some u ->
  let r := batch_store_observations utc json_dumps key observations s in
  users (snd r) = users s /\
  memories (snd r) = memories s ++ fst r /\
  sessions (snd r) = sessions s /\
  achievements (snd r) = achievements s /\
  Forall (fun m => Memory.user_id m = User.id u) (fst r).
Proof.
  intros Hfind. unfold batch_store_observations.
  rewrite bind_apply, (get_or_create_user_found key s u Hfind).
  cbn [fst snd].
  destruct (store_each_effect utc json_dumps (User.id u) observations s)
    as (Hu & Hs & Ha & Hm & _).
  split; [done|]. split; [done|]. split; [done|]. split; [done|].
  apply store_each_user.
Qed.

Lemma store_extracted_dicts (user_pk : Z) (observations : list Observation) :
  forall s : Store,
  store_extracted utc json_dumps user_pk (ObservationDict <$> observations)
                  s =
  (Some (fst (store_each utc json_dumps user_pk observations s)),
   snd (store_each utc json_dumps user_pk observations s)).
Proof.
  induction observations as [|obs observations IH]; intros s; [done|].
  rewrite fmap_cons. cbn [store_extracted store_each].
  destruct (obs_observation obs) as [text|]; [|apply IH].
  destruct (nonempty text); [|apply IH].
  rewrite !bind_apply. rewrite IH. done.
Qed.





End TurnProperties.

(** ** Formatting *)

Lemma append_assoc (a b c : string) : (a +:+ b) +:+ c = a +:+ (b +:+ c).
Proof.
  induction a as [|x a IH]; [done|].
  change (String x ((a +:+ b) +:+ c) = String x (a +:+ (b +:+ c))).
  by rewrite IH.
Qed.

Lemma join_cons (sep p q : string) (ps : list string) :
  join sep (p :: q :: ps) = p +:+ sep +:+ join sep (q :: ps).
Proof.
  unfold join. cbn [foldl]. revert q.
  induction ps as [|r ps IH]; intros q; cbn [foldl]; [done|].
  rewrite <- IH. by rewrite !append_assoc.
Qed.

Lemma last_two_app {A} (older : list A) (a b : A) :
  last_two (older ++ [a; b]) = [a; b].
Proof.
  unfold last_two. rewrite length_app. cbn [length].
  replace (length older + 2 - 2)%nat with (length older) by lia.
  by rewrite drop_app_length.
Qed.

(** X24: [_format_recent_context] gives the empty string for no sessions and
    otherwise renders only the last two sessions it is given, each as a
    ["Trader: ..."] line followed by a ["You: ..."] line: any older
    sessions do not change the result. *)
Theorem format_recent_context_last_two
    (older : list (string * string * datetime))
    (a b : string * string * datetime) :
  _format_recent_context [] = EmptyString /\
  _format_recent_context (older ++ [a; b]) =
    _format_recent_context [a; b] /\
  _format_recent_context [a; b] =
    ("Trader: " +:+ fst (fst a)) +:+ newline +:+
    ("You: " +:+ snd (fst a)) +:+ newline +:+
    ("Trader: " +:+ fst (fst b)) +:+ newline +:+
    ("You: " +:+ snd (fst b)) /\
  _format_recent_context [a] =
    ("Trader: " +:+ fst (fst a)) +:+ newline +:+ ("You: " +:+ snd (fst a)).
Proof.
  split; [done|]. split; [|split].
  - unfold _format_recent_context. rewrite last_two_app.
    change (last_two [a; b]) with [a; b].
    by destruct older.
  - unfold _format_recent_context. change (last_two [a; b]) with [a; b].
    cbn [fmap list_fmap concat app]. by rewrite !join_cons.
  - unfold _format_recent_context. change (last_two [a]) with [a].
    cbn [fmap list_fmap concat app]. by rewrite !join_cons.
Qed.

(** X25: [format_memories_for_context] gives a fixed sentence for no memory
    and otherwise one entry per memory, in order, separated by newlines;
    an entry is the category in brackets (["[observation]"] when the
    category is missing or empty), the observation, and the
    interpretation after an arrow unless it is missing or empty. *)
Theorem format_memories_for_context_entries (m m' : Memory.t)
    (ms : list Memory.t) :
  format_memories_for_context [] = "No prior observations available." /\
  format_memories_for_context [m] = format_memory m /\
  format_memories_for_context (m :: m' :: ms) =
    format_memory m +:+ newline +:+ format_memories_for_context (m' :: ms) /\
  format_memory m =
    (match Memory.category m with
     | Some c => if nonempty c then "[" +:+ c +:+ "]" else "[observation]"
     | None => "[observation]"
     end) +:+ " " +:+ Memory.observation m +:+
    (match Memory.interpretation m with
     | Some i => if nonempty i then " " +:+ "→ " +:+ i else EmptyString
     | None => EmptyString
     end).
Proof.
  split; [done|]. split; [done|]. split.
  - unfold format_memories_for_context. rewrite !fmap_cons.
    by rewrite join_cons.
  - unfold format_memory.
    assert (Hnil : forall x : string, x +:+ EmptyString = x).
    { induction x as [|c x IH]; [done|].
      change (String c (x +:+ EmptyString) = String c x). by rewrite IH. }
    destruct (Memory.interpretation m) as [i|]; [destruct (nonempty i)|];
      cbn [app]; rewrite ?join_cons; cbn [join foldl];
      rewrite ?Hnil, ?append_assoc; reflexivity.
Qed.

(** ** The further properties on the sample data *)

Lemma five_memories_reachable :
  reachable sample_utc sample_loads ascii_strip sample_dumps five_memories.
Proof. apply reachable_run, play_reachable, reachable_empty. Qed.


Lemma reachable_keys_unique_witness :
  reachable sample_utc sample_loads ascii_strip sample_dumps five_memories /\
  keys_unique five_memories.
Proof.
  split; [exact five_memories_reachable|].
  exact (reachable_keys_unique sample_utc sample_loads ascii_strip sample_dumps
           five_memories five_memories_reachable).
Defined.

Lemma reachable_stats_consistent_witness :
  reachable sample_utc sample_loads ascii_strip sample_dumps five_memories /\
  Forall stats_consistent (users five_memories).
Proof.
  split; [exact five_memories_reachable|].
  exact (reachable_stats_consistent
      sample_utc sample_loads ascii_strip sample_dumps
           five_memories five_memories_reachable).
Defined.

Lemma get_recent_memories_newest_witness :
  0 <= 2 /\
  StronglySorted recency_desc
    (fst (get_recent_memories 1 2 None five_memories)) /\
  Z.of_nat (length (fst (get_recent_memories 1 2 None five_memories))) <= 2.
Proof.
  assert (H : 0 <= 2) by lia. split; [exact H|].
  pose proof (get_recent_memories_newest 1 2 None five_memories H)
    as (_ & Hsorted & Hlen & _).
  exact (conj Hsorted Hlen).
Defined.

Lemma flagged_memories_newest_witness :
  0 <= 3 /\
  StronglySorted recency_desc
    (fst (get_identity_statements 1 3 five_memories)) /\
  StronglySorted recency_desc
    (fst (get_follow_up_opportunities 1 3 five_memories)).
Proof.
  assert (H : 0 <= 3) by lia. split; [exact H|].
  pose proof (flagged_memories_newest 1 3 five_memories H)
    as ((_ & H1 & _) & _ & (_ & H3 & _)).
  exact (conj H1 H3).
Defined.

Lemma users_persist_witness :
  first (by_user_key "ada") (users one_user) = Some ada /\
  exists u',
    first (by_user_key "ada")
          (users (sample_run (UpdateUserStats 1) one_user)) = Some u' /\
    User.id u' = User.id ada /\ User.created_at u' = User.created_at ada.
Proof.
  split; [reflexivity|].
  apply (users_persist sample_utc sample_loads ascii_strip sample_dumps
           (UpdateUserStats 1) one_user "ada" ada).
  reflexivity.
Defined.

Lemma promote_and_decay_overwrite_witness :
  first (by_memory_pk 3) (memories five_memories) = Some third_memory /\
  first (by_memory_pk 3)
        (memories (snd (decay_memory_relevance 3 1 five_memories))) =
    Some (Memory.set_relevance_score 3 third_memory).
Proof.
  split; [reflexivity|].
  exact (proj1 (proj2 (promote_and_decay_overwrite 3 1 five_memories
                         third_memory eq_refl))).
Defined.

Lemma mark_achievement_celebrated_settles_witness :
  NoDup (Achievement.id <$> achievements one_achievement) /\
  snd (mark_achievement_celebrated 1
         (snd (mark_achievement_celebrated 1 one_achievement))) =
    snd (mark_achievement_celebrated 1 one_achievement).
Proof.
  assert (H : NoDup (Achievement.id <$> achievements one_achievement)).
  { change (Achievement.id <$> achievements one_achievement) with [1].
    apply NoDup_singleton. }
  split; [exact H|].
  exact (proj1 (proj2 (mark_achievement_celebrated_settles 1
                         one_achievement H))).
Defined.

Lemma update_user_stats_frame_witness :
  first (by_user_pk 1) (users one_user) = Some ada /\
  exists user',
    fst (update_user_stats sample_utc 1 one_user) = Some user' /\
    User.total_sessions user' = User.total_sessions ada + 1.
Proof.
  split; [reflexivity|].
  destruct (update_user_stats_frame sample_utc 1 one_user ada eq_refl)
    as (user' & H1 & _ & _ & H4 & _).
  exists user'. exact (conj H1 H4).
Defined.

Lemma streak_safe_after_interaction_witness :
  first (by_user_pk 1) (users two_sessions) = Some ada_again /\
  date (sample_utc (S (S (clock_reads two_sessions)))) =
    date (sample_utc (clock_reads two_sessions)) /\
  status_has_interacted_today
    (fst (get_streak_status sample_utc 1
            (snd (update_user_stats sample_utc 1 two_sessions)))) = true /\
  status_streak_at_risk
    (fst (get_streak_status sample_utc 1
            (snd (update_user_stats sample_utc 1 two_sessions)))) = false.
Proof.
  split; [reflexivity|]. split; [reflexivity|].
  pose proof (streak_safe_after_interaction sample_utc 1 two_sessions
                ada_again eq_refl eq_refl) as (H1 & H2 & _).
  exact (conj H1 H2).
Defined.

Lemma connection_depth_monotone_witness :
  User.first_interaction_date veteran = User.first_interaction_date ada /\
  User.total_sessions ada <= User.total_sessions veteran /\
  User.current_streak ada <= User.current_streak veteran /\
  sample_utc (clock_reads one_user) <= sample_utc (clock_reads one_user) /\
  fst (_calculate_connection_depth sample_utc ada one_user) <=
  fst (_calculate_connection_depth sample_utc veteran one_user).
Proof.
  assert (H1 : User.total_sessions ada <= User.total_sessions veteran)
    by (simpl; lia).
  assert (H2 : User.current_streak ada <= User.current_streak veteran)
    by (simpl; lia).
  assert (H3 : sample_utc (clock_reads one_user) <=
               sample_utc (clock_reads one_user)) by lia.
  split; [reflexivity|]. split; [exact H1|]. split; [exact H2|].
  split; [exact H3|].
  exact (connection_depth_monotone sample_utc ada veteran one_user one_user
           eq_refl H1 H2 H3).
Defined.

Lemma streak_achievements_after_interaction_witness :
  first (by_user_pk 1) (users one_user) = Some ada /\
  0 <= User.total_sessions ada /\
  fst (has_achievement 1 "first_step"
         (snd (check_and_unlock_achievements
             sample_utc sample_loads ascii_strip 1
                 (snd (update_user_stats sample_utc 1 one_user))))) = true.
Proof.
  assert (H : 0 <= User.total_sessions ada) by (simpl; lia).
  split; [reflexivity|]. split; [exact H|].
  exact (proj1 (streak_achievements_after_interaction
      sample_utc sample_loads ascii_strip
                  1 one_user ada eq_refl H)).
Defined.


(** The same turn with a model whose list holds text after the first
    observation: the turn ends with the exception of
    [batch_store_observations], the memory of the first observation is
    stored, and neither a session row nor the session count is. *)
Lemma process_user_input_store_error :
  let r := process_user_input sample_utc sample_dumps sample_generate
             sample_extract_text "I hesitate" "ada" one_user in
  fst r = StoreError /\
  Memory.observation <$> memories (snd r) =
    (Memory.observation <$> memories one_user) ++ ["I hesitate"] /\
  sessions (snd r) = sessions one_user /\
  User.total_sessions <$> users (snd r) =
    User.total_sessions <$> users one_user.
Proof. vm_compute. repeat split; reflexivity. Qed.
